(** * mnemom/deploy: the deployment-safety scripts

  A shallow embedding of
    - [scripts/check-error-rate.js]   (the canary gate),
    - [scripts/post-deploy-monitor.js] (the rollback supervisor),
    - [scripts/confidence-score.js]    (the risk scorer),
    - [scripts/setup-betterstack.js]   (the provisioning of uptime monitors),
  the properties their specification states about them, and further
  properties read off the code.

  JavaScript numbers that carry measurements (request counts, error rates,
  thresholds, clock readings) are IEEE-754 binary64 values, modelled by the
  kernel's primitive floats, so comparisons behave as in the scripts,
  [NaN] included.  The confidence score only ever holds small integers and is
  modelled in [Z]; so are HTTP status codes and line counts.

  Everything a script reads from outside (environment variables, HTTP
  responses, the clock) is a field of a [World] record; everything it does to
  the outside (summary lines, console lines, step outputs, HTTP POSTs, exit
  codes) is an [Event] of its trace or the [Outcome] of the run.  The text of
  a request is not modelled: the world fixes the answer to each call.  Writing
  to the summary and output files is taken to succeed.

  The polling loop of the supervisor runs on fuel, one unit per test of its
  condition; a run that is out of fuel is [Pending], and the properties that
  say a run ends give the fuel that suffices. *)

From Stdlib Require Import Floats.PrimFloat Floats.SpecFloat Floats.FloatOps Floats.FloatAxioms.
From Stdlib Require Import ZArith List String Ascii Bool Lia DecimalString.
Import ListNotations.
Open Scope string_scope.

Set Implicit Arguments.
Set Warnings "-register-all".

(* ===================================================================== *)
(** ** JavaScript values and string helpers *)
(* ===================================================================== *)

Module Js.

(** [await e] either yields a value or throws an [Error] with a message. *)
Inductive Try (A : Type) : Type :=
| Ok (a : A)
| Throw (message : string).
Arguments Throw {A} message.

(** [process.env.X]: unset, or a string. *)
Definition envvar := option string.

(** [!x] for an environment variable: [undefined] and [""] are falsy. *)
Definition falsy (x : envvar) : bool :=
  match x with
  | None => true
  | Some s => String.eqb s ""
  end.

(** [x || d] for an environment variable. *)
Definition orElse (x : envvar) (d : string) : string :=
  match x with
  | None => d
  | Some s => if String.eqb s "" then d else s
  end.

(** Template-literal rendering of an integer-valued number. *)
Definition string_of_Z (z : Z) : string := NilZero.string_of_int (Z.to_int z).
Definition string_of_nat (n : nat) : string := NilZero.string_of_uint (Nat.to_uint n).

(** [s.startsWith(p)], [s.endsWith(p)], [a.join(sep)], [s.slice(0, n)]. *)
Definition startsWith (s p : string) : bool := String.prefix p s.
Definition endsWith (s p : string) : bool :=
  let n := String.length s in
  let m := String.length p in
  if (m <=? n)%nat then String.eqb (String.substring (n - m) m s) p else false.
Definition join (sep : string) (l : list string) : string := String.concat sep l.
Definition slice0 (n : nat) (s : string) : string := String.substring 0 n s.

(** The line feed of ["\n"]. *)
Definition nl : string := String (ascii_of_nat 10) EmptyString.

(** A value produced by [JSON.parse]; an object is the list of its own
    properties, looked up by the first entry with the key. *)
Inductive Json : Type :=
| JNull
| JBool (b : bool)
| JNumber (x : float)
| JString (s : string)
| JArray (items : list Json)
| JObject (props : list (string * Json)).

Fixpoint lookup (k : string) (props : list (string * Json)) : option Json :=
  match props with
  | [] => None
  | (k', v) :: rest => if String.eqb k' k then Some v else lookup k rest
  end.

(** The numbers the scripts compare against. *)
Definition zero : float := 0%float.
Definition five_percent : float := 0x1.999999999999ap-5%float. (* 0.05 *)

End Js.
Import Js.

(* ===================================================================== *)
(** ** Effects: traces, outcomes and the script monad *)
(* ===================================================================== *)

(** What a script does to the outside, in the order it does it. *)
Inductive Event : Type :=
| Summary (content : string)      (* writeSummary(content): a line of the step
                                   summary, mirrored with console.log *)
| Log (text : string)             (* console.log(text) *)
| LogError (text : string)        (* console.error(text) *)
| SetOutput (key value : string)  (* setOutput(key, value) *)
| Sleep (ms : float)              (* await sleep(ms) *)
| Dispatch (serviceName environment : string)
                                (* a call of dispatchRollback *)
| Post (url : string) (service environment : string).
                                (* the POST that starts rollback.yml *)

(** How a computation ends. *)
Inductive Outcome (A : Type) : Type :=
| Val (a : A)                (* completes normally *)
| Thrown (message : string)  (* an Error propagates to the caller *)
| Exited (code : Z)          (* process.exit(code) *)
| Pending.                   (* still running when the fuel ran out *)
Arguments Thrown {A} message.
Arguments Exited {A} code.
Arguments Pending {A}.

Module Script.

(** The mutable variables [S] of a script and the trace emitted so far. *)
Record Store (S : Type) : Type := mkStore { vars : S; out : list Event }.

Definition M (S A : Type) : Type := Store S -> Store S * Outcome A.

Definition ret {S A} (a : A) : M S A := fun s => (s, Val a).

Definition bind {S A B} (m : M S A) (k : A -> M S B) : M S B :=
  fun s =>
    match m s with
    | (s', Val a) => k a s'
    | (s', Thrown e) => (s', Thrown e)
    | (s', Exited c) => (s', Exited c)
    | (s', Pending) => (s', Pending)
    end.

Definition emit {S} (e : Event) : M S unit :=
  fun s => (mkStore (vars s) (out s ++ [e]), Val tt).

Definition throw {S A} (message : string) : M S A := fun s => (s, Thrown message).
Definition exit {S A} (code : Z) : M S A := fun s => (s, Exited code).
Definition pending {S A} : M S A := fun s => (s, Pending).

Definition get {S} : M S S := fun s => (s, Val (vars s)).
Definition modify {S} (f : S -> S) : M S unit :=
  fun s => (mkStore (f (vars s)) (out s), Val tt).

(** [try { m } catch (err) { handler(err.message) }] *)
Definition try_catch {S A} (m : M S A) (handler : string -> M S A) : M S A :=
  fun s =>
    match m s with
    | (s', Thrown e) => handler e s'
    | r => r
    end.

(** A pure [await] that may throw. *)
Definition await {S A} (r : Try A) : M S A :=
  match r with
  | Ok a => ret a
  | Throw e => throw e
  end.

(** The exit status of the Node process once the top-level promise has
    settled: [process.exit(c)] gives [c]; a settled promise lets the event
    loop drain and the process ends with 0; an unhandled rejection ends it
    with 1. *)
Definition exitCode {A} (o : Outcome A) : option Z :=
  match o with
  | Val _ => Some 0%Z
  | Exited c => Some c
  | Thrown _ => Some 1%Z
  | Pending => None
  end.

Definition start {S} (init : S) : Store S := mkStore init [].

End Script.
Import Script.

Declare Scope script_scope.
Delimit Scope script_scope with script.
Notation "x <- m ;; k" := (bind m (fun x => k))
(at level 61, m at next level, right associativity) : script_scope.
Notation "m ;; k" := (bind m (fun _ => k))
(at level 61, right associativity) : script_scope.
Open Scope script_scope.

Definition writeSummary {S} (content : string) : M S unit := emit (Summary content).
Definition console_log {S} (text : string) : M S unit := emit (Log text).
Definition console_error {S} (text : string) : M S unit := emit (LogError text).
Definition setOutput {S} (key value : string) : M S unit := emit (SetOutput key value).

(** [passed ? "true" : "false"] *)
Definition boolText (b : bool) : string := if b then "true" else "false".

(** Readings of a trace. *)
Definition summaryOf (tr : list Event) : list string :=
flat_map (fun e => match e with Summary c => [c] | _ => [] end) tr.
Definition outputsOf (tr : list Event) : list (string * string) :=
flat_map (fun e => match e with SetOutput k v => [(k, v)] | _ => [] end) tr.
Definition dispatchesOf (tr : list Event) : list (string * string) :=
flat_map (fun e => match e with Dispatch s v => [(s, v)] | _ => [] end) tr.
Definition sleepsOf (tr : list Event) : list float :=
  flat_map (fun e => match e with Sleep ms => [ms] | _ => [] end) tr.
Definition postsOf (tr : list Event) : list (string * string) :=
flat_map (fun e => match e with Post _ s v => [(s, v)] | _ => [] end) tr.

(* ===================================================================== *)
(** ** The Cloudflare analytics query (same text in both scripts) *)
(* ===================================================================== *)

Module Analytics.

(** One row of [workersInvocationsAdaptive]: its [sum]. *)
Record Row : Type := mkRow { row_requests : float; row_errors : float }.

(** The parsed GraphQL response: the messages of [data.errors] (none when the
    field is absent) and
    [data.data?.viewer?.accounts?.[0]?.workersInvocationsAdaptive]. *)
Record Body : Type :=
  mkBody { gql_errors : list string; invocations : option (list Row) }.

(** What [fetch] and [res.json()] give: the call rejects (no response, or the
    request could not be built), or a response arrives with [res.ok],
    [res.status] and a body that parses or not. *)
Inductive Fetch : Type :=
| Rejects (message : string)
| Response (ok : bool) (status : Z) (json : Try Body).

Record Sample : Type :=
  mkSample { requests : float; errors : float; errorRate : float }.

Definition queryErrorRate (f : Fetch) : Try Sample :=
  match f with
  | Rejects e => Throw e
  | Response ok status json =>
      if negb ok then
        Throw ("Cloudflare GraphQL API returned " ++ string_of_Z status)
      else
        match json with
        | Throw e => Throw e
        | Ok data =>
            if (0 <? List.length (gql_errors data))%nat then
              Throw ("GraphQL errors: " ++ join ", " (gql_errors data))
            else
              match invocations data with
              | None | Some [] => Ok (mkSample zero zero zero)
              | Some (first :: _) =>
                  let requests := row_requests first in
                  let errors := row_errors first in
                  let errorRate :=
                    if (zero <? requests)%float then (errors / requests)%float
                    else zero in
                  Ok (mkSample requests errors errorRate)
              end
        end
  end.

End Analytics.
Import Analytics.

(* ===================================================================== *)
(** ** scripts/check-error-rate.js: the canary gate *)
(* ===================================================================== *)

Module CheckErrorRate.
Section Program.

(** Built-ins of the language, left abstract: [parseFloat], [parseInt(_, 10)],
    the rendering of a number in a template literal and [x.toFixed(d)]. *)
Variables parseFloat parseInt : string -> float.
Variable Number_toString : float -> string.
Variable toFixed : float -> nat -> string.

Record Env : Type := mkEnv {
  SCRIPT_NAME : envvar;
  OBSERVATION_SECONDS : envvar;
  ERROR_THRESHOLD : envvar
}.

Record World : Type := mkWorld { env : Env; analytics : Fetch }.

Definition observationSeconds (e : Env) : float :=
  parseInt (orElse (OBSERVATION_SECONDS e) "60").
Definition errorThreshold (e : Env) : float :=
  parseFloat (orElse (ERROR_THRESHOLD e) "0.05").

(** The verdict of lines 130-131. *)
Definition passed (result : Sample) (threshold : float) : bool :=
  (requests result =? zero)%float || (errorRate result <=? threshold)%float.

Definition main (w : World) : M unit unit :=
  let scriptName := SCRIPT_NAME (env w) in
  let observationSeconds := observationSeconds (env w) in
  let errorThreshold := errorThreshold (env w) in
  if falsy scriptName then
    console_error "SCRIPT_NAME is required" ;;
    exit 1
  else
    let scriptName := orElse scriptName "" in
    match queryErrorRate (analytics w) with
    | Throw message =>
        console_error ("Error querying analytics: " ++ message) ;;
        writeSummary "## Canary Error Rate Check" ;;
        writeSummary "" ;;
        writeSummary ("> **PASS** (fail-open) — analytics query failed: " ++ message) ;;
        setOutput "canary-passed" "true" ;;
        ret tt
    | Ok result =>
        let passed := passed result errorThreshold in
        writeSummary "## Canary Error Rate Check" ;;
        writeSummary "" ;;
        writeSummary "| Metric | Value |" ;;
        writeSummary "|--------|-------|" ;;
        writeSummary ("| Script | `" ++ scriptName ++ "` |") ;;
        writeSummary ("| Window | " ++ Number_toString observationSeconds ++ "s |") ;;
        writeSummary ("| Requests | " ++ Number_toString (requests result) ++ " |") ;;
        writeSummary ("| Errors | " ++ Number_toString (errors result) ++ " |") ;;
        writeSummary ("| Error Rate | " ++ toFixed (errorRate result * 100)%float 2 ++ "% |") ;;
        writeSummary ("| Threshold | " ++ toFixed (errorThreshold * 100)%float 2 ++ "% |") ;;
        writeSummary ("| Result | **" ++ (if passed then "PASS" else "FAIL") ++ "** |") ;;
        (if (requests result =? zero)%float then
           writeSummary "" ;;
           writeSummary "_No traffic observed during window — passing (fail-open)._"
         else ret tt) ;;
        setOutput "canary-passed" (if passed then "true" else "false")
    end.

(** [main().catch((err) => ...)] *)
Definition onError (message : string) : M unit unit :=
  console_error ("check-error-rate.js error: " ++ message) ;;
  writeSummary "## Canary Error Rate Check" ;;
  writeSummary "" ;;
  writeSummary ("> **PASS** (fail-open) — script error: " ++ message) ;;
  setOutput "canary-passed" "true".

Definition program (w : World) : Store unit * Outcome unit :=
  try_catch (main w) onError (start tt).

(** The trace and exit status of one invocation. *)
Definition trace (w : World) : list Event := out (fst (program w)).
Definition status (w : World) : option Z := exitCode (snd (program w)).

(** A response carrying one row with the given counts. *)
Definition counted (requests errors : float) : Fetch :=
  Response true 200 (Ok (mkBody [] (Some [mkRow requests errors]))).

End Program.
End CheckErrorRate.

(* ===================================================================== *)
(** ** scripts/post-deploy-monitor.js: the rollback supervisor *)
(* ===================================================================== *)

Module PostDeployMonitor.
Section Program.

Variables parseFloat parseInt : string -> float.
Variable Number_toString : float -> string.
Variable toFixed : float -> nat -> string.

Record Env : Type := mkEnv {
  SCRIPT_NAME : envvar;
  SERVICE_NAME : envvar;
  ENVIRONMENT : envvar;
  ERROR_THRESHOLD : envvar;
  MONITOR_DURATION_SECONDS : envvar;
  POLL_INTERVAL_SECONDS : envvar;
  GITHUB_TOKEN : envvar
}.

(** The answer of GitHub to the workflow-dispatch POST: the call rejects, or a
    response arrives with [res.ok], [res.status] and [await res.text()]. *)
Inductive GithubFetch : Type :=
| GhRejects (message : string)
| GhResponse (ok : bool) (status : Z) (text : Try string).

(** [startTime] is [Date.now()] of line 163; [clock k] is [Date.now()] at the
    loop test reached after [k] completed iterations; [analytics i] answers the
    query of iteration [i]. *)
Record World : Type := mkWorld {
  env : Env;
  startTime : float;
  clock : nat -> float;
  analytics : nat -> Fetch;
  github : GithubFetch
}.

(** An entry of [checks]. *)
Inductive Check : Type :=
| CheckOk (iteration : nat) (requests errors errorRate : float)
| CheckError (iteration : nat) (message : string).

(** The variables the loop mutates. *)
Record Vars : Type := mkVars { iteration : nat; checks : list Check }.

Definition push (c : Check) : M Vars unit :=
  modify (fun v => mkVars (iteration v) (checks v ++ [c])).

Definition dispatch_url : string :=
  "https://api.github.com/repos/mnemom/deploy/actions/workflows/rollback.yml/dispatches".

Definition dispatchRollback (w : World) (serviceName environment : string)
  : M Vars bool :=
  emit (Dispatch serviceName environment) ;;
  let token := GITHUB_TOKEN (env w) in
  if falsy token then
    console_error "GITHUB_TOKEN not set — cannot dispatch rollback" ;;
    ret false
  else
    emit (Post dispatch_url serviceName environment) ;;
    match github w with
    | GhRejects e => throw e
    | GhResponse ok status text =>
        if negb ok then
          body <- await text ;;
          console_error ("Failed to dispatch rollback: " ++ string_of_Z status
                         ++ " " ++ body) ;;
          ret false
        else
          console_log ("Rollback dispatched for " ++ serviceName
                       ++ " (" ++ environment ++ ")") ;;
          ret true
    end.

Definition environment (e : Env) : string := orElse (ENVIRONMENT e) "production".
Definition errorThreshold (e : Env) : float :=
  parseFloat (orElse (ERROR_THRESHOLD e) "0.05").
Definition monitorDuration (e : Env) : float :=
  parseInt (orElse (MONITOR_DURATION_SECONDS e) "300").
Definition pollInterval (e : Env) : float :=
  parseInt (orElse (POLL_INTERVAL_SECONDS e) "30").
Definition endTime (w : World) : float :=
  (startTime w + monitorDuration (env w) * 1000)%float.

(** The rollback condition of line 205. *)
Definition breach (threshold : float) (requests errorRate : float) : bool :=
  (zero <? requests)%float && (threshold <? errorRate)%float.

(** One row of the report table (lines 222-230 and 246-254). *)
Definition row (c : Check) : string :=
  match c with
  | CheckOk i requests errors errorRate =>
      "| " ++ string_of_nat i ++ " | " ++ Number_toString requests ++ " | "
      ++ Number_toString errors ++ " | " ++ toFixed (errorRate * 100)%float 2 ++ "% |"
  | CheckError i message =>
      "| " ++ string_of_nat i ++ " | — | — | _" ++ message ++ "_ |"
  end.

Fixpoint writeRows (cs : list Check) : M Vars unit :=
  match cs with
  | [] => ret tt
  | c :: rest => writeSummary (row c) ;; writeRows rest
  end.

(** The [while] loop of lines 171-235; each unit of fuel pays for one test of
    the loop condition. *)
Fixpoint loop (w : World) (scriptName serviceName : string) (fuel : nat)
  : M Vars unit :=
  match fuel with
  | O => pending
  | S fuel' =>
      v <- get ;;
      if (clock w (iteration v) <? endTime w)%float then
        modify (fun v => mkVars (S (iteration v)) (checks v)) ;;
        emit (Sleep (pollInterval (env w) * 1000)%float) ;;
        v <- get ;;
        let iteration := iteration v in
        match queryErrorRate (analytics w iteration) with
        | Throw message =>
            console_log ("  [" ++ string_of_nat iteration
                         ++ "] Analytics query failed: " ++ message
                         ++ " (continuing)") ;;
            push (CheckError iteration message) ;;
            loop w scriptName serviceName fuel'
        | Ok result =>
            let errorPct := toFixed (errorRate result * 100)%float 2 in
            console_log ("  [" ++ string_of_nat iteration ++ "] requests="
                         ++ Number_toString (requests result) ++ " errors="
                         ++ Number_toString (errors result) ++ " rate="
                         ++ errorPct ++ "%") ;;
            push (CheckOk iteration (requests result) (errors result)
                          (errorRate result)) ;;
            if breach (errorThreshold (env w)) (requests result) (errorRate result)
            then
              let threshold := toFixed (errorThreshold (env w) * 100)%float 1 in
              console_error ("Error rate " ++ errorPct ++ "% exceeds threshold "
                             ++ threshold ++ "% — triggering rollback") ;;
              writeSummary "## Post-Deploy Monitor" ;;
              writeSummary "" ;;
              writeSummary ("**ROLLBACK TRIGGERED** for `" ++ serviceName
                            ++ "` (`" ++ environment (env w) ++ "`)") ;;
              writeSummary "" ;;
              writeSummary ("Error rate " ++ errorPct ++ "% exceeded threshold "
                            ++ threshold ++ "% at check "
                            ++ string_of_nat iteration ++ ".") ;;
              writeSummary "" ;;
              writeSummary "| Check | Requests | Errors | Rate |" ;;
              writeSummary "|-------|----------|--------|------|" ;;
              v <- get ;;
              writeRows (checks v) ;;
              _ <- dispatchRollback w serviceName (environment (env w)) ;;
              exit 1
            else
              loop w scriptName serviceName fuel'
        end
      else
        ret tt
  end.

Definition main (w : World) (fuel : nat) : M Vars unit :=
  let scriptName := SCRIPT_NAME (env w) in
  let serviceName := SERVICE_NAME (env w) in
  if falsy scriptName || falsy serviceName then
    console_error "SCRIPT_NAME and SERVICE_NAME are required" ;;
    exit 1
  else
    let scriptName := orElse scriptName "" in
    let serviceName := orElse serviceName "" in
    console_log ("Monitoring " ++ scriptName ++ " for "
                 ++ Number_toString (monitorDuration (env w))
                 ++ "s (polling every " ++ Number_toString (pollInterval (env w))
                 ++ "s, threshold: "
                 ++ toFixed (errorThreshold (env w) * 100)%float 1 ++ "%)") ;;
    loop w scriptName serviceName fuel ;;
    writeSummary "## Post-Deploy Monitor" ;;
    writeSummary "" ;;
    writeSummary ("**PASS** — `" ++ scriptName ++ "` monitored for "
                  ++ Number_toString (monitorDuration (env w))
                  ++ "s with no error spike.") ;;
    writeSummary "" ;;
    writeSummary "| Check | Requests | Errors | Rate |" ;;
    writeSummary "|-------|----------|--------|------|" ;;
    v <- get ;;
    writeRows (checks v).

(** [main().catch((err) => ...)] *)
Definition onError (message : string) : M Vars unit :=
  console_error ("post-deploy-monitor.js error: " ++ message) ;;
  writeSummary "## Post-Deploy Monitor" ;;
  writeSummary "" ;;
  writeSummary ("> **PASS** (fail-open) — script error: " ++ message).

Definition program (w : World) (fuel : nat) : Store Vars * Outcome unit :=
  try_catch (main w fuel) onError (start (mkVars 0 [])).

(** Readings of a run. *)
Definition trace (w : World) (fuel : nat) : list Event := out (fst (program w fuel)).
Definition records (w : World) (fuel : nat) : list Check :=
  checks (vars (fst (program w fuel))).
Definition status (w : World) (fuel : nat) : option Z :=
  exitCode (snd (program w fuel)).

(** A record that by itself warrants rollback: successfully sampled, with
    traffic, and with an error rate above the threshold. *)
Definition breaching (threshold : float) (c : Check) : bool :=
  match c with
  | CheckOk _ requests _ errorRate => breach threshold requests errorRate
  | CheckError _ _ => false
  end.

Definition isError (c : Check) : bool :=
  match c with
  | CheckOk _ _ _ _ => false
  | CheckError _ _ => true
  end.

(** A response carrying one row with the given counts. *)
Definition counted (requests errors : float) : Fetch :=
  Response true 200 (Ok (mkBody [] (Some [mkRow requests errors]))).

(** No rollback has been asked for in the trace. *)
Definition quiet (tr : list Event) : Prop :=
  dispatchesOf tr = [] /\ postsOf tr = [].

(** Rollback has been asked for, once, and the last record is a sample with
    traffic and an error rate above the threshold. *)
Definition breached (w : World) (serviceName : string) (s : Store Vars) : Prop :=
  dispatchesOf (out s) = [(serviceName, environment (env w))]
  /\ (List.length (postsOf (out s)) <= 1)%nat
  /\ exists prefix i requests errors errorRate,
       checks (vars s) = (prefix ++ [CheckOk i requests errors errorRate])%list
       /\ (zero <? requests)%float = true
       /\ (errorThreshold (env w) <? errorRate)%float = true.

(** How the loop can leave the run: quietly (finished or still polling), or
    on a breach (rollback asked for, then [process.exit(1)] or the error that
    escaped the dispatch). *)
Definition settles (w : World) (serviceName : string)
  (r : Store Vars * Outcome unit) : Prop :=
  (quiet (out (fst r)) /\ (snd r = Val tt \/ snd r = Pending))
  \/ (breached w serviceName (fst r)
      /\ (snd r = Exited 1%Z \/ exists e, snd r = Thrown e)).

(** The record iteration [i] appends, and whether it leaves the loop running. *)
Definition recordOf (w : World) (i : nat) : Check :=
  match queryErrorRate (analytics w i) with
  | Ok result => CheckOk i (requests result) (errors result) (errorRate result)
  | Throw message => CheckError i message
  end.

Definition quietPoll (w : World) (i : nat) : bool :=
  negb (breaching (errorThreshold (env w)) (recordOf w i)).

(** The lines that open the pass report (lines 238-245). *)
Definition passLines (e : Env) : list string :=
  [ "## Post-Deploy Monitor"; "";
    "**PASS** — `" ++ orElse (SCRIPT_NAME e) "" ++ "` monitored for "
    ++ Number_toString (monitorDuration e) ++ "s with no error spike.";
    ""; "| Check | Requests | Errors | Rate |";
    "|-------|----------|--------|------|" ].

(** The shapes a whole run can take: refused for want of configuration;
    quiet (passed, or still polling when the fuel ran out); or breached, ending
    either in [process.exit(1)] or, when the dispatch threw, in the outermost
    handler. *)
Definition unconfigured (e : Env) : bool :=
  falsy (SCRIPT_NAME e) || falsy (SERVICE_NAME e).

Definition shaped (w : World) (r : Store Vars * Outcome unit) : Prop :=
  (unconfigured (env w) = true
   /\ r = (mkStore (mkVars 0 []) [LogError "SCRIPT_NAME and SERVICE_NAME are required"],
           Exited 1%Z))
  \/ (unconfigured (env w) = false
      /\ quiet (out (fst r)) /\ (snd r = Val tt \/ snd r = Pending))
  \/ (unconfigured (env w) = false
      /\ breached w (orElse (SERVICE_NAME (env w)) "") (fst r)
      /\ (snd r = Exited 1%Z \/ snd r = Val tt)).

(** The lines that open the rollback report (lines 210-221), for a breach
    at check [i] with the given error rate. *)
Definition rollbackLines (e : Env) (i : nat) (errorRate : float) : list string :=
  [ "## Post-Deploy Monitor"; "";
    "**ROLLBACK TRIGGERED** for `" ++ orElse (SERVICE_NAME e) "" ++ "` (`"
    ++ environment e ++ "`)";
    "";
    "Error rate " ++ toFixed (errorRate * 100)%float 2 ++ "% exceeded threshold "
    ++ toFixed (errorThreshold e * 100)%float 1 ++ "% at check "
    ++ string_of_nat i ++ ".";
    ""; "| Check | Requests | Errors | Rate |";
    "|-------|----------|--------|------|" ].

(** Whether [dispatchRollback] returns instead of throwing: it returns
    without a token, on an ok response, and on a refusal whose body can be
    read. *)
Definition dispatchReturns (w : World) : bool :=
  falsy (GITHUB_TOKEN (env w))
  || match github w with
     | GhRejects _ => false
     | GhResponse ok _ text =>
         ok || match text with Ok _ => true | Throw _ => false end
     end.

(** The records are those of polls 1, 2, ... up to the iteration counter, and
    every poll was preceded by one sleep. *)
Definition numbered (w : World) (s : Store Vars) : Prop :=
  checks (vars s) = map (recordOf w) (seq 1 (iteration (vars s)))
  /\ List.length (sleepsOf (out s)) = iteration (vars s).

End Program.
End PostDeployMonitor.

(* ===================================================================== *)
(** ** scripts/confidence-score.js: the risk scorer *)
(* ===================================================================== *)

Module ConfidenceScore.
Section Program.

(** Built-ins left abstract: [JSON.parse], the rendering of a number in a
    template literal, and [Math.round]. *)
Variable JSON_parse : string -> Try Json.
Variable Number_toString : float -> string.
Variable Math_round : float -> float.

Record Env : Type := mkEnv {
  SOURCE_REPO : envvar;
  SOURCE_REF : envvar;
  DEPLOY_FLAGS : envvar
}.

(** The answer of the GitHub API to one GET, already read at the type the
    caller uses: the call rejects, or a response arrives with [res.ok],
    [res.status] and [res.json()]. *)
Inductive Api (A : Type) : Type :=
| ApiRejects (message : string)
| ApiResponse (ok : bool) (status : Z) (json : Try A).
Arguments ApiRejects {A} message.

Definition ghApi {A} (path : string) (res : Api A) : Try A :=
  match res with
  | ApiRejects e => Throw e
  | ApiResponse ok status json =>
      if negb ok then Throw ("GitHub API " ++ string_of_Z status ++ ": " ++ path)
      else json
  end.

(** An entry of [compare.files]. *)
Record File : Type := mkFile { filename : string; additions : Z; deletions : Z }.

(** [commit] is read as [commit.parents?.[0]?.sha], [compare] as
    [compare.files || []], [deployments] as the [getTime()] of the
    [created_at] of each listed deployment; [now] is [Date.now()]. *)
Record World : Type := mkWorld {
  env : Env;
  commit : Api (option string);
  compare : Api (list File);
  deployments : Api (list float);
  now : float
}.

Record DiffStats : Type := mkDiffStats { totalChanges : Z; files : list string }.

Definition getDiffStats (w : World) (repo sha : string) : Try DiffStats :=
  match ghApi ("/repos/mnemom/" ++ repo ++ "/commits/" ++ sha) (commit w) with
  | Throw e => Throw e
  | Ok parentSha =>
      if falsy parentSha then Ok (mkDiffStats 0 [])
      else
        match ghApi ("/repos/mnemom/" ++ repo ++ "/compare/"
                     ++ orElse parentSha "" ++ "..." ++ sha) (compare w) with
        | Throw e => Throw e
        | Ok compare_files =>
            Ok (mkDiffStats
                  (fold_left (fun sum f => sum + additions f + deletions f)%Z
                             compare_files 0%Z)
                  (map filename compare_files))
        end
  end.

Definition msPerDay : float := (1000 * 60 * 60 * 24)%float.

Definition getDaysSinceLastProdDeploy (w : World) (repo : string) : Try float :=
  match ghApi ("/repos/mnemom/" ++ repo
               ++ "/deployments?environment=production&per_page=1")
              (deployments w) with
  | Throw e => Throw e
  | Ok [] => Ok infinity
  | Ok (lastDeploy :: _) => Ok ((now w - lastDeploy) / msPerDay)%float
  end.

Definition serviceKeys : list string :=
  [ "smoltbot"; "mnemom-api"; "mnemom-reputation"; "mnemom-risk";
    "mnemom-website"; "mnemom-prover"; "hunter" ].

(** [deployFlags[k] === true] on a value that is not [null]. *)
Definition flagged (deployFlags : Json) (k : string) : bool :=
  match deployFlags with
  | JObject props =>
      match lookup k props with
      | Some (JBool true) => true
      | _ => false
      end
  | _ => false
  end.

(** Reading a property of [null] throws a [TypeError]; the first key read is
    ["smoltbot"]. *)
Definition countServicesAffected (deployFlags : Json) : Try nat :=
  match deployFlags with
  | JNull => Throw "Cannot read properties of null (reading 'smoltbot')"
  | _ => Ok (List.length (filter (flagged deployFlags) serviceKeys))
  end.

Record Factor : Type := mkFactor { signal : string; impact : string }.

(** The two variables the analysis mutates. *)
Record Acc : Type := mkAcc { score : Z; factors : list Factor }.

Definition adjust (delta : Z) (f : Factor) (a : Acc) : Acc :=
  mkAcc (score a + delta) (factors a ++ [f]).

Definition isConfigFile (f : string) : bool :=
  negb (startsWith f "src/") && negb (endsWith f ".test.ts")
  && negb (endsWith f ".test.js") && negb (endsWith f ".spec.ts")
  && negb (endsWith f ".spec.js").

Definition isDepFile (f : string) : bool :=
  endsWith f "package.json" || endsWith f "package-lock.json"
  || endsWith f "pnpm-lock.yaml".

(** The [try] block of lines 103-180, in two parts.  Signals 1 to 4 (lines
    104-162): the score and factors they leave, or the error thrown. *)
Definition changeSignals (w : World) (repo sha : string) (deployFlags : Json)
  : Try Acc :=
  match getDiffStats w repo sha with
  | Throw e => Throw e
  | Ok stats =>
      let a := mkAcc 100 [] in
      let a :=
        if (totalChanges stats <? 50)%Z
        then adjust 10 (mkFactor "Small change (<50 lines)" "+10") a else a in
      let a :=
        if (totalChanges stats >? 500)%Z
        then adjust (-20) (mkFactor "Large change (>500 lines)" "-20") a else a in
      let configFiles := filter isConfigFile (files stats) in
      let a :=
        if (0 <? List.length configFiles)%nat
        then adjust (-10)
               (mkFactor ("Files outside src/ (" ++ join ", " (firstn 3 configFiles)
                          ++ (if (3 <? List.length configFiles)%nat then "..." else "")
                          ++ ")") "-10") a
        else a in
      let depFiles := filter isDepFile (files stats) in
      let a :=
        if (0 <? List.length depFiles)%nat
        then adjust (-15)
               (mkFactor ("Dependency changes (" ++ join ", " depFiles ++ ")") "-15") a
        else a in
      match countServicesAffected deployFlags with
      | Throw e => Throw e
      | Ok serviceCount =>
          if (3 <? serviceCount)%nat
          then Ok (adjust (-15)
                     (mkFactor (string_of_nat serviceCount ++ " services affected (>3)")
                               "-15") a)
          else if (2 <=? serviceCount)%nat
          then Ok (adjust (-5)
                     (mkFactor (string_of_nat serviceCount ++ " services affected (2-3)")
                               "-5") a)
          else Ok a
      end
  end.

Definition staleFactor (daysSince : float) : Factor :=
  mkFactor (">7 days since last prod deploy ("
            ++ Number_toString (Math_round daysSince) ++ "d)") "-5".
Definition unavailableFactor : Factor :=
  mkFactor "Last prod deploy time unavailable" "n/a".

(** Signal 5 (lines 164-179), with its own [try]: it never throws. *)
Definition historySignal (w : World) (repo : string) (a : Acc) : Acc :=
  match getDaysSinceLastProdDeploy w repo with
  | Ok daysSince =>
      if (7 <? daysSince)%float then adjust (-5) (staleFactor daysSince) a else a
  | Throw _ => mkAcc (score a) (factors a ++ [unavailableFactor])
  end.

Definition analyse (w : World) (repo sha : string) (deployFlags : Json) : Try Acc :=
  match changeSignals w repo sha deployFlags with
  | Throw e => Throw e
  | Ok a => Ok (historySignal w repo a)
  end.

Definition header : string := "## Deployment Confidence Score".
Definition scoreLine (score : Z) : string :=
  "**Score: " ++ string_of_Z score ++ "** / 100".

Definition factorRow (f : Factor) : string :=
  "| " ++ signal f ++ " | " ++ impact f ++ " |".

Fixpoint writeFactors (fs : list Factor) : M unit unit :=
  match fs with
  | [] => ret tt
  | f :: rest => writeSummary (factorRow f) ;; writeFactors rest
  end.

Definition deployFlags (e : Env) : Json :=
  match JSON_parse (orElse (DEPLOY_FLAGS e) "{}") with
  | Ok flags => flags
  | Throw _ => JObject []
  end.

Definition main (w : World) : M unit unit :=
  let repo := SOURCE_REPO (env w) in
  let sha := SOURCE_REF (env w) in
  let deployFlags := deployFlags (env w) in
  if falsy repo || falsy sha then
    writeSummary header ;;
    writeSummary "" ;;
    writeSummary "**Score: 50** / 100" ;;
    writeSummary "" ;;
    writeSummary "_No source commit available for analysis (manual dispatch without ref)._"
  else
    let repo := orElse repo "" in
    let sha := orElse sha "" in
    match analyse w repo sha deployFlags with
    | Throw message =>
        writeSummary header ;;
        writeSummary "" ;;
        writeSummary "**Score: 50** / 100" ;;
        writeSummary "" ;;
        writeSummary ("_Analysis unavailable: " ++ message ++ "_")
    | Ok a =>
        let score := Z.max 0 (Z.min 100 (score a)) in
        writeSummary header ;;
        writeSummary "" ;;
        writeSummary (scoreLine score) ;;
        writeSummary "" ;;
        writeSummary ("> Source: `" ++ repo ++ "` @ `" ++ slice0 7 sha ++ "`") ;;
        writeSummary "" ;;
        if (0 <? List.length (factors a))%nat then
          writeSummary "| Signal | Impact |" ;;
          writeSummary "|--------|--------|" ;;
          writeFactors (factors a)
        else
          writeSummary "_No risk signals detected._"
    end.

(** [main().catch((err) => ...)]: the five lines go out as one block. *)
Definition onError (message : string) : M unit unit :=
  console_error ("Confidence score error: " ++ message) ;;
  writeSummary (join nl [ header; ""; "**Score: 50** / 100"; "";
                          "_Error computing score: " ++ message ++ "_" ]).

Definition program (w : World) : Store unit * Outcome unit :=
  try_catch (main w) onError (start tt).

Definition trace (w : World) : list Event := out (fst (program w)).
Definition report (w : World) : list string := summaryOf (trace w).
Definition status (w : World) : option Z := exitCode (snd (program w)).

(** Readings of a report: how often a line occurs, and whether a line is a
    score line. *)
Definition occurrences (line : string) (lines : list string) : nat :=
  List.length (filter (String.eqb line) lines).
Definition isScoreLine (line : string) : bool := String.prefix "**Score: " line.

(** The table of a report with factors, and the line of one without. *)
Definition factorLines (fs : list Factor) : list string :=
  if (0 <? List.length fs)%nat
  then "| Signal | Impact |" :: "|--------|--------|" :: map factorRow fs
  else ["_No risk signals detected._"].

(** No commit to analyse. *)
Definition unidentified (e : Env) : bool :=
  falsy (SOURCE_REPO e) || falsy (SOURCE_REF e).

(** The two reports of the script: the neutral one, with the reason it gives,
    and the scored one. *)
Definition neutralReport (reason : string) : list string :=
  [ header; ""; "**Score: 50** / 100"; ""; reason ].

Definition scoredReport (repo sha : string) (a : Acc) : list string :=
  ([ header; ""; scoreLine (Z.max 0 (Z.min 100 (score a))); "";
    ("> Source: `" ++ repo ++ "` @ `" ++ slice0 7 sha ++ "`")%string; "" ]
  ++ factorLines (factors a))%list.

(** The report a run writes, read off the source: neutral without a commit
    or when the analysis throws, scored otherwise. *)
Definition expectedReport (w : World) : list string :=
  if unidentified (env w) then
    neutralReport
      "_No source commit available for analysis (manual dispatch without ref)._"
  else
    match analyse w (orElse (SOURCE_REPO (env w)) "") (orElse (SOURCE_REF (env w)) "")
                  (deployFlags (env w)) with
    | Throw message => neutralReport ("_Analysis unavailable: " ++ message ++ "_")
    | Ok a =>
        scoredReport (orElse (SOURCE_REPO (env w)) "") (orElse (SOURCE_REF (env w)) "") a
    end.

(** The number an impact stands for: a signed decimal, or nothing ("n/a"). *)
Definition impactValue (impact : string) : Z :=
  let digits :=
    match impact with
    | String "+" rest => rest
    | _ => impact
    end in
  match NilZero.int_of_string digits with
  | Some d => Z.of_int d
  | None => 0%Z
  end.

(** 100 plus the impacts of the listed factors. *)
Definition accounted (fs : list Factor) : Z :=
  fold_right (fun f total => (impactValue (impact f) + total)%Z) 100%Z fs.

End Program.
End ConfidenceScore.

(* ===================================================================== *)
(** ** scripts/setup-betterstack.js: provisioning the uptime monitors *)
(* ===================================================================== *)

Module SetupBetterstack.

Record Monitor : Type :=
  mkMonitor { name : string; url : string; check_frequency : Z }.

Definition MONITORS : list Monitor :=
  [ mkMonitor "Gateway" "https://gateway.mnemom.ai/health" 60;
    mkMonitor "API" "https://api.mnemom.ai/health" 60;
    mkMonitor "Reputation" "https://reputation.mnemom.ai/health" 60;
    mkMonitor "Risk" "https://risk.mnemom.ai/health" 60;
    mkMonitor "Website" "https://www.mnemom.ai" 60;
    mkMonitor "Prover"
      "https://mnemom--mnemom-prover-prover-service.modal.run/health" 300 ].

(** A request sent to the BetterStack API, by path under [API_BASE]: a GET,
    or the POST that creates a monitor. *)
Inductive Request : Type :=
| GET (path : string)
| POST (path : string) (monitor : Monitor).

(** What [fetch] gives to [apiRequest]: the call rejects; a response that is
    not ok, with [res.status] and [await res.text()]; or an ok response, with
    [res.json()]. *)
Inductive Answer (A : Type) : Type :=
| NoAnswer (message : string)
| Refusal (status : Z) (text : Try string)
| Success (json : Try A).
Arguments NoAnswer {A} message.
Arguments Refusal {A} status text.

(** A listed monitor, read as [m.attributes?.url], and a page of the
    listing, read as [data.data] and the truth of [data.pagination?.next]. *)
Record Listed : Type := mkListed { attributes_url : option string }.
Record Page : Type := mkPage { data : option (list Listed); next : bool }.

(** [listing p] answers the GET of page [p]; [creation m] answers the POST
    for monitor [m]. *)
Record World : Type := mkWorld {
  BETTERSTACK_API_TOKEN : envvar;
  listing : nat -> Answer Page;
  creation : Monitor -> Answer unit
}.

(** The state of a run: the requests sent so far. *)
Definition Sent : Type := list Request.

Definition apiRequest {A} (w : World) (request : Request) (answer : Answer A)
  : M Sent A :=
  if falsy (BETTERSTACK_API_TOKEN w) then
    throw "BETTERSTACK_API_TOKEN is required"
  else
    modify (fun sent => (sent ++ [request])%list) ;;
    match answer with
    | NoAnswer e => throw e
    | Refusal status text =>
        body <- await text ;;
        throw ("BetterStack API " ++ string_of_Z status ++ ": " ++ body)
    | Success json => await json
    end.

Definition listPath (page : nat) : string := "/monitors?page=" ++ string_of_nat page.

(** The [while (true)] of [getExistingMonitors], one unit of fuel per page. *)
Fixpoint pages (w : World) (fuel page : nat) (monitors : list Listed)
  : M Sent (list Listed) :=
  match fuel with
  | O => pending
  | S fuel' =>
      answer <- apiRequest w (GET (listPath page)) (listing w page) ;;
      match data answer with
      | None | Some [] => ret monitors
      | Some items =>
          let monitors := (monitors ++ items)%list in
          if negb (next answer) then ret monitors
          else pages w fuel' (S page) monitors
      end
  end.

Definition getExistingMonitors (w : World) (fuel : nat) : M Sent (list Listed) :=
  pages w fuel 1 [].

Definition createMonitor (w : World) (monitor : Monitor) : M Sent unit :=
  apiRequest w (POST "/monitors" monitor) (creation w monitor).

(** [new Set(existing.map((m) => m.attributes?.url).filter(Boolean))] and
    [existingUrls.has(url)]. *)
Definition existingUrls (existing : list Listed) : list string :=
  flat_map (fun m => match attributes_url m with
                     | Some u => if String.eqb u "" then [] else [u]
                     | None => []
                     end) existing.
Definition has (urls : list string) (u : string) : bool :=
  existsb (String.eqb u) urls.

(** The [for] loop of [main]. *)
Fixpoint forEachMonitor (w : World) (urls : list string) (monitors : list Monitor)
  : M Sent unit :=
  match monitors with
  | [] => ret tt
  | monitor :: rest =>
      (if has urls (url monitor) then
         console_log ("  SKIP  " ++ name monitor ++ " — already exists ("
                      ++ url monitor ++ ")")
       else
         try_catch
           (createMonitor w monitor ;;
            console_log ("  CREATE  " ++ name monitor ++ " — " ++ url monitor
                         ++ " (every " ++ string_of_Z (check_frequency monitor)
                         ++ "s)"))
           (fun message =>
              console_error ("  ERROR  " ++ name monitor ++ " — " ++ message))) ;;
      forEachMonitor w urls rest
  end.

Definition main (w : World) (fuel : nat) : M Sent unit :=
  console_log "Fetching existing monitors..." ;;
  existing <- getExistingMonitors w fuel ;;
  let existingUrls := existingUrls existing in
  console_log ("Found " ++ string_of_nat (List.length existing)
               ++ " existing monitor(s)" ++ nl) ;;
  forEachMonitor w existingUrls MONITORS ;;
  console_log (nl ++ "Done.").

(** [main().catch((err) => ...)] *)
Definition onError (message : string) : M Sent unit :=
  console_error ("setup-betterstack.js error: " ++ message) ;;
  exit 1.

Definition program (w : World) (fuel : nat) : Store Sent * Outcome unit :=
  try_catch (main w fuel) onError (start []).

(** Readings of a run. *)
Definition sent (w : World) (fuel : nat) : list Request := vars (fst (program w fuel)).
Definition console (w : World) (fuel : nat) : list Event := out (fst (program w fuel)).
Definition status (w : World) (fuel : nat) : option Z :=
  exitCode (snd (program w fuel)).

(** The monitors a run has asked to create, and the pages it has asked for. *)
Definition created (requests : list Request) : list Monitor :=
  flat_map (fun r => match r with POST _ m => [m] | GET _ => [] end) requests.
Definition fetched (requests : list Request) : list string :=
  flat_map (fun r => match r with GET p => [p] | POST _ _ => [] end) requests.

(** The monitors of [MONITORS] that a listing does not show. *)
Definition missing (existing : list Listed) : list Monitor :=
  filter (fun m => negb (has (existingUrls existing) (url m))) MONITORS.

(** How a page answer moves the listing on: it continues after a page with
    items and a next page, and stops after any other readable page. *)
Definition itemsOf (answer : Answer Page) : list Listed :=
  match answer with
  | Success (Ok page) => match data page with Some items => items | None => [] end
  | _ => []
  end.
Definition continues (answer : Answer Page) : bool :=
  match answer with
  | Success (Ok page) =>
      match data page with
      | Some (_ :: _) => next page
      | _ => false
      end
  | _ => false
  end.
Definition stops (answer : Answer Page) : bool :=
  match answer with
  | Success (Ok _) => negb (continues answer)
  | _ => false
  end.

End SetupBetterstack.

(* ===================================================================== *)
(** ** Concrete worlds *)
(* ===================================================================== *)

(** Stand-ins for the abstract built-ins, enough to run the scripts on the
    worlds below: the numerals the worlds use, and blank renderings. *)
Definition parseNumber (s : string) : float :=
  if String.eqb s "0.05" then five_percent
  else if String.eqb s "30" then 30%float
  else if String.eqb s "60" then 60%float
  else if String.eqb s "300" then 300%float
  else nan.
Definition parseDefault : string -> float := fun _ => five_percent.
Definition noNumber : float -> string := fun _ => "".
Definition noFixed : float -> nat -> string := fun _ _ => "".

(** A canary world: the script is named, the threshold is left to its
    default, and the window saw the given counts. *)
Definition canaryWorld (requests errors : float) : CheckErrorRate.World :=
  CheckErrorRate.mkWorld
    (CheckErrorRate.mkEnv (Some "smoltbot-gateway") None None)
    (CheckErrorRate.counted requests errors).

(** A canary world whose analytics API answers 503. *)
Definition canaryOutage : CheckErrorRate.World :=
  CheckErrorRate.mkWorld
    (CheckErrorRate.mkEnv (Some "smoltbot-gateway") None None)
    (Response false 503 (Throw "")).

(** Supervisor worlds: a one-minute watch of [smoltbot-gateway], polled every
    30 seconds, the clock reading 0, 30000 and 60000 at the loop tests. *)
Definition monitorEnv : PostDeployMonitor.Env :=
  PostDeployMonitor.mkEnv (Some "smoltbot-gateway") (Some "smoltbot") None None
    (Some "60") None (Some "ghs_token").

Definition halfMinutes (k : nat) : float :=
  match k with
  | 0 => 0%float
  | 1 => 30000%float
  | _ => 60000%float
  end.

(** The analytics API is unreachable at every poll. *)
Definition blindWorld : PostDeployMonitor.World :=
  PostDeployMonitor.mkWorld monitorEnv 0%float halfMinutes
    (fun _ => Rejects "fetch failed")
    (PostDeployMonitor.GhResponse true 204 (Ok "")).

(** Every window shows 50 errors in 100 requests, and the POST to GitHub
    rejects. *)
Definition dispatchOutage : PostDeployMonitor.World :=
  PostDeployMonitor.mkWorld monitorEnv 0%float halfMinutes
    (fun _ => PostDeployMonitor.counted 100 50)
    (PostDeployMonitor.GhRejects "fetch failed").

(** Every window shows 100 requests and no error. *)
Definition healthyWorld : PostDeployMonitor.World :=
  PostDeployMonitor.mkWorld monitorEnv 0%float halfMinutes
    (fun _ => PostDeployMonitor.counted 100 0)
    (PostDeployMonitor.GhResponse true 204 (Ok "")).

(** [SCRIPT_NAME] is not set; the analytics would show no errors. *)
Definition unnamedWorld : PostDeployMonitor.World :=
  PostDeployMonitor.mkWorld
    (PostDeployMonitor.mkEnv None (Some "smoltbot") None None None None None)
    0%float halfMinutes
    (fun _ => PostDeployMonitor.counted 100 0)
    (PostDeployMonitor.GhResponse true 204 (Ok "")).

(** Scorer worlds: commit [0123456789abcdef] of [smoltbot], four services
    flagged (and one package), 600 changed lines under [src/], and a
    production deployment one day before [now]. *)
Definition fourServices : Json :=
  JObject [ ("smoltbot", JBool true); ("mnemom-api", JBool true);
            ("mnemom-risk", JBool true); ("hunter", JBool true);
            ("mnemom-website", JBool false); ("aap", JBool true) ].
Definition parseFlags : string -> Try Json := fun _ => Ok fourServices.
Definition roundId : float -> float := fun x => x.
Definition showInfinity : float -> string :=
  fun x => if (x =? infinity)%float then "Infinity" else "".

Definition scorerEnv : ConfidenceScore.Env :=
  ConfidenceScore.mkEnv (Some "smoltbot") (Some "0123456789abcdef") (Some "{}").

Definition largeChange : ConfidenceScore.World :=
  ConfidenceScore.mkWorld scorerEnv
    (ConfidenceScore.ApiResponse true 200 (Ok (Some "fedcba9876543210")))
    (ConfidenceScore.ApiResponse true 200
       (Ok [ ConfidenceScore.mkFile "src/gateway/index.ts" 400 150;
             ConfidenceScore.mkFile "src/gateway/index.test.ts" 30 20 ]))
    (ConfidenceScore.ApiResponse true 200 (Ok [0%float]))
    86400000%float.

(** The same change to a repository that has never been deployed to
    production. *)
Definition neverDeployed : ConfidenceScore.World :=
  ConfidenceScore.mkWorld scorerEnv
    (ConfidenceScore.commit largeChange) (ConfidenceScore.compare largeChange)
    (ConfidenceScore.ApiResponse true 200 (Ok []))
    86400000%float.

(** A manual dispatch: no commit reference. *)
Definition manualDispatch : ConfidenceScore.World :=
  ConfidenceScore.mkWorld
    (ConfidenceScore.mkEnv (Some "smoltbot") None None)
    (ConfidenceScore.commit largeChange) (ConfidenceScore.compare largeChange)
    (ConfidenceScore.deployments largeChange) 86400000%float.

(** Further supervisor worlds.  The first query fails and every later
    window shows 50 errors in 100 requests; GitHub accepts the dispatch. *)
Definition maskedBreach : PostDeployMonitor.World :=
  PostDeployMonitor.mkWorld monitorEnv 0%float halfMinutes
    (fun i => match i with
              | 1 => Rejects "fetch failed"
              | _ => PostDeployMonitor.counted 100 50
              end)
    (PostDeployMonitor.GhResponse true 204 (Ok "")).

(** Every window shows 7 errors and no request. *)
Definition idleWorld : PostDeployMonitor.World :=
  PostDeployMonitor.mkWorld monitorEnv 0%float halfMinutes
    (fun _ => PostDeployMonitor.counted 0 7)
    (PostDeployMonitor.GhResponse true 204 (Ok "")).

(** A threshold that does not parse. *)
Definition parseNaN : string -> float := fun _ => nan.

(** A canary world whose response carries no rows. *)
Definition canaryNoRows : CheckErrorRate.World :=
  CheckErrorRate.mkWorld
    (CheckErrorRate.mkEnv (Some "smoltbot-gateway") None None)
    (Response true 200 (Ok (mkBody [] None))).

(** Further scorer worlds: the deployments lookup is refused; the commit has
    no parent; the flags parse to [null]. *)
Definition historyRefused : ConfidenceScore.World :=
  ConfidenceScore.mkWorld scorerEnv
    (ConfidenceScore.commit largeChange) (ConfidenceScore.compare largeChange)
    (ConfidenceScore.ApiResponse false 403 (Throw ""))
    86400000%float.

Definition firstCommit : ConfidenceScore.World :=
  ConfidenceScore.mkWorld scorerEnv
    (ConfidenceScore.ApiResponse true 200 (Ok None))
    (@ConfidenceScore.ApiRejects _ "fetch failed")
    (ConfidenceScore.deployments largeChange) 86400000%float.

Definition parseNull : string -> Try Json := fun _ => Ok JNull.

(** Setup worlds.  The listing shows the gateway monitor and one without a
    URL, on a single page; BetterStack refuses to create the API monitor. *)
Definition gatewayListed : list SetupBetterstack.Listed :=
  [ SetupBetterstack.mkListed (Some "https://gateway.mnemom.ai/health");
    SetupBetterstack.mkListed None ].

Definition firstSetup : SetupBetterstack.World :=
  SetupBetterstack.mkWorld (Some "bs_token")
    (fun _ => SetupBetterstack.Success
                (Ok (SetupBetterstack.mkPage (Some gatewayListed) false)))
    (fun m => if String.eqb (SetupBetterstack.name m) "API"
              then SetupBetterstack.Refusal 422 (Ok "URL is invalid")
              else SetupBetterstack.Success (Ok tt)).

(** Later, the listing shows all six monitors, on two pages followed by an
    empty one. *)
Definition allListed : list SetupBetterstack.Listed :=
  map (fun m => SetupBetterstack.mkListed (Some (SetupBetterstack.url m)))
      SetupBetterstack.MONITORS.

Definition secondSetup : SetupBetterstack.World :=
  SetupBetterstack.mkWorld (Some "bs_token")
    (fun p => match p with
              | 1 => SetupBetterstack.Success
                       (Ok (SetupBetterstack.mkPage (Some (firstn 4 allListed)) true))
              | 2 => SetupBetterstack.Success
                       (Ok (SetupBetterstack.mkPage (Some (skipn 4 allListed)) true))
              | _ => SetupBetterstack.Success
                       (Ok (SetupBetterstack.mkPage (Some []) false))
              end)
    (fun _ => SetupBetterstack.NoAnswer "fetch failed").

(** No token. *)
Definition tokenlessSetup : SetupBetterstack.World :=
  SetupBetterstack.mkWorld None
    (SetupBetterstack.listing secondSetup) (SetupBetterstack.creation secondSetup).

(* ===================================================================== *)
(** * Properties *)
(* ===================================================================== *)

Unset Implicit Arguments.

(** ** Comparisons of JavaScript numbers *)

Lemma SFcompare_flip (a b : SpecFloat.spec_float) :
  SpecFloat.SFcompare b a = option_map CompOpp (SpecFloat.SFcompare a b).
Proof.
  destruct a as [[|] | [|] | | [|] ma ea], b as [[|] | [|] | | [|] mb eb];
    try reflexivity; cbn [SpecFloat.SFcompare option_map];
    rewrite (Z.compare_antisym ea eb);
    destruct (ea ?= eb)%Z; cbn [CompOpp]; try reflexivity;
    rewrite !Pos.compare_cont_antisym; cbn [CompOpp]; reflexivity.
Qed.

(** [a < b] excludes [b <= a] and [b == a]. *)
Lemma ltb_excludes (a b : float) :
  (a <? b)%float = true -> (b <=? a)%float = false /\ (b =? a)%float = false.
Proof.
  rewrite FloatAxioms.ltb_spec, FloatAxioms.leb_spec, FloatAxioms.eqb_spec.
  unfold SpecFloat.SFltb, SpecFloat.SFleb, SpecFloat.SFeqb.
  rewrite (SFcompare_flip (Prim2SF a) (Prim2SF b)).
  destruct (SpecFloat.SFcompare (Prim2SF a) (Prim2SF b)) as [[| |] |];
    intros H; try discriminate H; split; reflexivity.
Qed.

Lemma SFcompare_refl (a : SpecFloat.spec_float) :
  SpecFloat.SFcompare a a = None -> a = SpecFloat.S754_nan.
Proof. destruct a as [[|] | [|] | | [|] m e]; intros H; try discriminate H; reflexivity. Qed.

(** [NaN] compares false with everything. *)
Lemma nan_compares_false (t x : float) :
  is_nan t = true ->
  (t <? x)%float = false /\ (x <=? t)%float = false.
Proof.
  unfold is_nan. rewrite FloatAxioms.eqb_spec, FloatAxioms.ltb_spec, FloatAxioms.leb_spec.
  unfold SpecFloat.SFeqb, SpecFloat.SFltb, SpecFloat.SFleb.
  intros Hnan.
  assert (Ht : Prim2SF t = SpecFloat.S754_nan).
  { destruct (Prim2SF t) as [[|] | [|] | | [|] m e]; try reflexivity;
      cbn in Hnan; try discriminate Hnan;
      rewrite Z.compare_refl, Pos.compare_cont_refl in Hnan; discriminate Hnan. }
  rewrite Ht. split; [reflexivity |].
  destruct (Prim2SF x); reflexivity.
Qed.

(** ** Traces *)

Lemma dispatchesOf_app (a b : list Event) :
  dispatchesOf (a ++ b) = (dispatchesOf a ++ dispatchesOf b)%list.
Proof. apply flat_map_app. Qed.

Lemma postsOf_app (a b : list Event) :
  postsOf (a ++ b) = (postsOf a ++ postsOf b)%list.
Proof. apply flat_map_app. Qed.

Lemma summaryOf_app (a b : list Event) :
  summaryOf (a ++ b) = (summaryOf a ++ summaryOf b)%list.
Proof. apply flat_map_app. Qed.

Lemma summary_lines (ls : list string) :
  summaryOf (map Summary ls) = ls
  /\ dispatchesOf (map Summary ls) = []
  /\ postsOf (map Summary ls) = []
  /\ sleepsOf (map Summary ls) = [].
Proof.
  unfold summaryOf, dispatchesOf, postsOf, sleepsOf.
  induction ls as [| l ls (IHs & IHd & IHp & IHz)]; cbn [map flat_map app].
  - repeat split.
  - rewrite IHs, IHd, IHp, IHz. repeat split.
Qed.

(** ** The canary gate *)

Section CanaryGate.

Import CheckErrorRate.

Variables parseFloat parseInt : string -> float.
Variable Number_toString : float -> string.
Variable toFixed : float -> nat -> string.

Local Abbreviation trace := (CheckErrorRate.trace parseFloat parseInt Number_toString toFixed).
Local Abbreviation status := (CheckErrorRate.status parseFloat parseInt Number_toString toFixed).
Local Abbreviation errorThreshold := (CheckErrorRate.errorThreshold parseFloat).

(** A run whose query returned a sample sets [canary-passed] once, to the
    verdict of lines 130-131, and ends with status 0. *)
Lemma canary_sampled_run (w : World) (result : Sample) :
  falsy (SCRIPT_NAME (env w)) = false ->
  queryErrorRate (analytics w) = Ok result ->
  outputsOf (trace w)
    = [("canary-passed", boolText (passed result (errorThreshold (env w))))]
  /\ status w = Some 0%Z.
Proof.
  intros Hname Hquery.
  unfold CheckErrorRate.trace, CheckErrorRate.status, program, main, try_catch.
  rewrite Hname, Hquery.
  destruct (passed result _) eqn:Hp; destruct (requests result =? zero)%float;
    split; reflexivity.
Qed.

Lemma passed_iff (result : Sample) (threshold : float) :
  passed result threshold = true <->
  (requests result =? zero)%float = true
  \/ (errorRate result <=? threshold)%float = true.
Proof. unfold passed. apply orb_true_iff. Qed.

Lemma query_counted (requests errors : float) :
  queryErrorRate (counted requests errors)
  = Ok (mkSample requests errors
          (if (zero <? requests)%float then (errors / requests)%float else zero)).
Proof. reflexivity. Qed.

(** C4: on a successfully queried sample the gate reports
    [canary-passed=true] exactly when [requests === 0] or
    [errorRate <= errorThreshold]; so no traffic passes under every
    threshold, 6 errors in 100 requests fail at threshold 0.05, and 5 errors
    in 100 requests pass (the boundary is inclusive). *)
Theorem canary_passes_iff_no_traffic_or_within_threshold (w : World) :
  falsy (SCRIPT_NAME (env w)) = false ->
  (forall result : Sample,
      queryErrorRate (analytics w) = Ok result ->
      (outputsOf (trace w) = [("canary-passed", "true")] <->
       (requests result =? zero)%float = true
       \/ (errorRate result <=? errorThreshold (env w))%float = true)
      /\ (outputsOf (trace w) = [("canary-passed", "false")] <->
          ~ ((requests result =? zero)%float = true
             \/ (errorRate result <=? errorThreshold (env w))%float = true)))
  /\ (forall errors : float,
         analytics w = counted 0 errors ->
         outputsOf (trace w) = [("canary-passed", "true")])
  /\ (analytics w = counted 100 6 ->
      errorThreshold (env w) = five_percent ->
      outputsOf (trace w) = [("canary-passed", "false")])
  /\ (analytics w = counted 100 5 ->
      errorThreshold (env w) = five_percent ->
      outputsOf (trace w) = [("canary-passed", "true")]).
Proof.
  intros Hname. split; [| split; [| split]].
  - intros result Hquery.
    destruct (canary_sampled_run w result Hname Hquery) as [Hout _]. rewrite Hout.
    pose proof (passed_iff result (errorThreshold (env w))) as Hiff.
    destruct (passed result (errorThreshold (env w))); cbn; split; split.
    + intros _. apply Hiff. reflexivity.
    + reflexivity.
    + discriminate.
    + intros Hnot. exfalso. apply Hnot, Hiff. reflexivity.
    + discriminate.
    + intros Hpass. apply Hiff in Hpass. discriminate Hpass.
    + intros _ Hpass. apply Hiff in Hpass. discriminate Hpass.
    + reflexivity.
  - intros errors Hres.
    destruct (canary_sampled_run w (mkSample 0 errors zero) Hname) as [Hout _].
    + rewrite Hres. reflexivity.
    + rewrite Hout. reflexivity.
  - intros Hres Hthr.
    destruct (canary_sampled_run w (mkSample 100 6 (6 / 100)%float) Hname)
      as [Hout _].
    + rewrite Hres. reflexivity.
    + rewrite Hout, Hthr. reflexivity.
  - intros Hres Hthr.
    destruct (canary_sampled_run w (mkSample 100 5 (5 / 100)%float) Hname)
      as [Hout _].
    + rewrite Hres. reflexivity.
    + rewrite Hout, Hthr. reflexivity.
Qed.

(** C5: when the analytics query throws, whatever the cause, the gate sets
    [canary-passed=true], writes the reason into the summary and ends with
    status 0; the outermost handler of the script does the same. *)
Theorem canary_query_failure_passes (w : World) (reason : string) :
  falsy (SCRIPT_NAME (env w)) = false ->
  queryErrorRate (analytics w) = Throw reason ->
  outputsOf (trace w) = [("canary-passed", "true")]
  /\ summaryOf (trace w)
     = [ "## Canary Error Rate Check"; "";
         "> **PASS** (fail-open) — analytics query failed: " ++ reason ]
  /\ status w = Some 0%Z
  /\ (forall (message : string) (s : Store unit),
         outputsOf (out (fst (onError message s)))
         = (outputsOf (out s) ++ [("canary-passed", "true")])%list
         /\ snd (onError message s) = Val tt).
Proof.
  intros Hname Hquery.
  unfold CheckErrorRate.trace, CheckErrorRate.status, program, main, try_catch.
  rewrite Hname, Hquery. repeat split.
  unfold onError, outputsOf. cbn.
  rewrite !flat_map_app. cbn. rewrite !app_nil_r. reflexivity.
Qed.

(** *** Further properties of the canary gate *)

(** X4: the caller always finds its answer, or a failed step.  A run with
    [SCRIPT_NAME] sets [canary-passed] exactly once, to ["true"] or
    ["false"], writes a report and ends with status 0, whatever the analytics
    API does; a run without it sets no output, writes no report and ends with
    status 1. *)
Theorem canary_sets_output_once_or_exits (w : World) :
  (falsy (SCRIPT_NAME (env w)) = false ->
   (outputsOf (trace w) = [("canary-passed", "true")]
    \/ outputsOf (trace w) = [("canary-passed", "false")])
   /\ hd "" (summaryOf (trace w)) = "## Canary Error Rate Check"
   /\ status w = Some 0%Z)
  /\ (falsy (SCRIPT_NAME (env w)) = true ->
      outputsOf (trace w) = [] /\ summaryOf (trace w) = []
      /\ status w = Some 1%Z).
Proof.
  unfold CheckErrorRate.trace, CheckErrorRate.status, program, main, try_catch.
  split; intros Hname; rewrite Hname; [| repeat split].
  destruct (queryErrorRate (analytics w)) as [result | message].
  - destruct (passed result _), (requests result =? zero)%float;
      (split; [auto |]); split; reflexivity.
  - split; [left; reflexivity | split; reflexivity].
Qed.

(** X5: a window without rows is no error.  When the response carries no
    GraphQL error and [workersInvocationsAdaptive] is absent or empty, the
    gate passes under every threshold, unparsable ones included, and the
    report ends with the no-traffic note. *)
Theorem canary_passes_without_rows (w : World) (code : Z) (data : Body) :
  falsy (SCRIPT_NAME (env w)) = false ->
  analytics w = Response true code (Ok data) ->
  gql_errors data = [] ->
  invocations data = None \/ invocations data = Some [] ->
  queryErrorRate (analytics w) = Ok (mkSample zero zero zero)
  /\ outputsOf (trace w) = [("canary-passed", "true")]
  /\ List.last (summaryOf (trace w)) ""
     = "_No traffic observed during window — passing (fail-open)._"
  /\ status w = Some 0%Z.
Proof.
  intros Hname Hres Herrors Hrows.
  assert (Hquery : queryErrorRate (analytics w) = Ok (mkSample zero zero zero)).
  { rewrite Hres. unfold queryErrorRate. cbn [negb]. rewrite Herrors.
    cbn [List.length Nat.ltb Nat.leb].
    destruct Hrows as [-> | ->]; reflexivity. }
  split; [exact Hquery |].
  unfold CheckErrorRate.trace, CheckErrorRate.status, program, main, try_catch.
  rewrite Hname, Hquery. repeat split.
Qed.

(** X6: an unparsable threshold closes the gate.  When [ERROR_THRESHOLD]
    parses to [NaN], every sample with traffic fails, whatever its error
    rate. *)
Theorem canary_fails_traffic_under_nan_threshold (w : World) (result : Sample) :
  falsy (SCRIPT_NAME (env w)) = false ->
  queryErrorRate (analytics w) = Ok result ->
  is_nan (errorThreshold (env w)) = true ->
  (requests result =? zero)%float = false ->
  outputsOf (trace w) = [("canary-passed", "false")].
Proof.
  intros Hname Hquery Hnan Htraffic.
  destruct (canary_sampled_run w result Hname Hquery) as [-> _].
  unfold passed. rewrite Htraffic.
  destruct (nan_compares_false (errorThreshold (env w)) (errorRate result) Hnan)
    as [_ ->].
  reflexivity.
Qed.

End CanaryGate.

(** The three ways the query of the canary gate can fail, and the sample of
    a window without rows. *)
Lemma query_failures :
  (forall e, queryErrorRate (Rejects e) = Throw e)
  /\ (forall status json,
         queryErrorRate (Response false status json)
         = Throw ("Cloudflare GraphQL API returned " ++ string_of_Z status))
  /\ (forall status e, queryErrorRate (Response true status (Throw e)) = Throw e)
  /\ (forall status m ms inv,
         queryErrorRate (Response true status (Ok (mkBody (m :: ms) inv)))
         = Throw ("GraphQL errors: " ++ join ", " (m :: ms)))
  /\ (forall status,
         queryErrorRate (Response true status (Ok (mkBody [] None)))
         = Ok (mkSample zero zero zero)).
Proof. repeat split. Qed.

Lemma canary_passes_iff_witness :
  outputsOf (CheckErrorRate.trace parseDefault parseDefault noNumber noFixed
               (canaryWorld 100 6))
  = [("canary-passed", "false")].
Proof.
  apply (canary_passes_iff_no_traffic_or_within_threshold
           parseDefault parseDefault noNumber noFixed (canaryWorld 100 6));
    reflexivity.
Defined.

Lemma canary_query_failure_witness :
  summaryOf (CheckErrorRate.trace parseDefault parseDefault noNumber noFixed canaryOutage)
  = [ "## Canary Error Rate Check"; "";
      "> **PASS** (fail-open) — analytics query failed: Cloudflare GraphQL API returned 503" ].
Proof.
  apply (canary_query_failure_passes parseDefault parseDefault noNumber noFixed
           canaryOutage "Cloudflare GraphQL API returned 503");
    reflexivity.
Defined.

(** ** The rollback supervisor *)

Section RollbackSupervisor.

Import PostDeployMonitor.

Variables parseFloat parseInt : string -> float.
Variable Number_toString : float -> string.
Variable toFixed : float -> nat -> string.

Local Abbreviation loop := (PostDeployMonitor.loop parseFloat parseInt Number_toString toFixed).
Local Abbreviation main := (PostDeployMonitor.main parseFloat parseInt Number_toString toFixed).
Local Abbreviation program := (PostDeployMonitor.program parseFloat parseInt Number_toString toFixed).
Local Abbreviation trace := (PostDeployMonitor.trace parseFloat parseInt Number_toString toFixed).
Local Abbreviation records := (PostDeployMonitor.records parseFloat parseInt Number_toString toFixed).
Local Abbreviation status := (PostDeployMonitor.status parseFloat parseInt Number_toString toFixed).
Local Abbreviation errorThreshold := (PostDeployMonitor.errorThreshold parseFloat).
Local Abbreviation endTime := (PostDeployMonitor.endTime parseInt).
Local Abbreviation writeRows := (PostDeployMonitor.writeRows Number_toString toFixed).
Local Abbreviation row := (PostDeployMonitor.row Number_toString toFixed).
Local Abbreviation breached := (PostDeployMonitor.breached parseFloat).
Local Abbreviation settles := (PostDeployMonitor.settles parseFloat).
Local Abbreviation shaped := (PostDeployMonitor.shaped parseFloat).
Local Abbreviation quietPoll := (PostDeployMonitor.quietPoll parseFloat).
Local Abbreviation passLines := (PostDeployMonitor.passLines parseInt Number_toString).
Local Abbreviation rollbackLines := (PostDeployMonitor.rollbackLines parseFloat toFixed).

Lemma writeRows_run (cs : list Check) (s : Store Vars) :
  writeRows cs s
  = (mkStore (vars s) (out s ++ map (fun c => Summary (row c)) cs), Val tt).
Proof.
  revert s. induction cs as [| c cs IH]; intros s.
  - cbn. rewrite app_nil_r. destruct s; reflexivity.
  - cbn [PostDeployMonitor.writeRows map]. unfold bind, writeSummary, emit.
    rewrite IH. cbn [vars out]. rewrite <- app_assoc. reflexivity.
Qed.

Lemma rows_trace (cs : list Check) :
  dispatchesOf (map (fun c => Summary (row c)) cs) = []
  /\ postsOf (map (fun c => Summary (row c)) cs) = []
  /\ summaryOf (map (fun c => Summary (row c)) cs) = map row cs.
Proof.
  unfold dispatchesOf, postsOf, summaryOf.
  induction cs as [| c cs (IHd & IHp & IHs)]; cbn [map flat_map app].
  - repeat split.
  - rewrite IHd, IHp, IHs. repeat split.
Qed.

Ltac run_step :=
  unfold await;
  unfold console_log, console_error, writeSummary, push, bind, emit, modify,
    get, ret, exit, throw;
  cbn [vars out iteration checks fst snd].

Ltac read_trace :=
  cbn [fst snd out vars checks];
  rewrite ?dispatchesOf_app, ?postsOf_app;
  repeat match goal with
         | |- context [dispatchesOf (map _ ?cs)] =>
             rewrite (proj1 (rows_trace cs))
         | |- context [postsOf (map _ ?cs)] =>
             rewrite (proj1 (proj2 (rows_trace cs)))
         end;
  simpl (dispatchesOf [_]); simpl (postsOf [_]);
  rewrite ?app_nil_r.

Lemma loop_invariant (w : World) (scriptName serviceName : string) (fuel : nat) :
  forall s : Store Vars,
    quiet (out s) ->
    settles w serviceName (loop w scriptName serviceName fuel s).
Proof.
  induction fuel as [| fuel IH]; intros s [Hd Hp].
  - left. split; [split; assumption | right; reflexivity].
  - cbn [PostDeployMonitor.loop]. unfold bind at 1, get at 1.
    destruct (clock w (iteration (vars s)) <? endTime w)%float.
    2:{ left. split; [split; assumption | left; reflexivity]. }
    unfold bind at 1, modify at 1, bind at 1, emit at 1, bind at 1, get at 1.
    cbn [vars out iteration checks].
    destruct (queryErrorRate _) as [result | message].
    + run_step.
      destruct (breach _ _ _) eqn:Hbreach.
      * right. rewrite writeRows_run. cbn [vars out].
        apply andb_true_iff in Hbreach. destruct Hbreach as [Htraffic Hrate].
        unfold dispatchRollback.
        destruct (falsy (GITHUB_TOKEN (env w))); [| destruct (github w) as [e | [|] status [body | e]]];
          run_step; cbn [negb];
          (split; [| auto; right; eexists; reflexivity]);
          (split; [read_trace; rewrite Hd; reflexivity |]);
          (split; [read_trace; rewrite Hp; cbn [app List.length]; lia |]);
          eexists _, _, _, _, _; (split; [reflexivity | split; assumption]).
      * apply IH. split; cbn [out]; read_trace; [rewrite Hd | rewrite Hp]; reflexivity.
    + run_step. apply IH. split; cbn [out]; read_trace; [rewrite Hd | rewrite Hp]; reflexivity.
Qed.

Lemma program_shaped (w : World) (fuel : nat) : shaped w (program w fuel).
Proof.
  unfold PostDeployMonitor.program, PostDeployMonitor.main, try_catch.
  destruct (falsy (SCRIPT_NAME (env w)) || falsy (SERVICE_NAME (env w))) eqn:Hcfg.
  - left. split; [exact Hcfg | reflexivity].
  - unfold bind at 1, console_log at 1, emit at 1. unfold bind at 1.
    match goal with
    | |- context [loop w ?sn ?svc fuel ?s] =>
        destruct (loop_invariant w sn svc fuel s) as [[Hq Ho] | [Hb Ho]];
        [ split; reflexivity | |];
        destruct (loop w sn svc fuel s) as [s' o]
    end; cbn [fst snd] in *.
    + right. left. split; [exact Hcfg |]. destruct Ho as [-> | ->].
      * run_step. rewrite writeRows_run. cbn [fst snd vars out].
        split; [| left; reflexivity].
        destruct Hq as [Hd Hp].
        split; read_trace; [rewrite Hd | rewrite Hp]; reflexivity.
      * split; [assumption | right; reflexivity].
    + right. right. split; [exact Hcfg |]. destruct Ho as [-> | [e ->]].
      * split; [assumption | left; reflexivity].
      * unfold PostDeployMonitor.onError. run_step.
        split; [| right; reflexivity].
        destruct Hb as (Hd & Hp & Hlast).
        split; [| split]; read_trace; [rewrite Hd; reflexivity | assumption | assumption].
Qed.

(** While the clock is short of [endTime] and no poll breaches, the loop keeps
    polling; it returns at the first reading that is not before [endTime],
    having slept and appended one record per poll and asked for no rollback. *)
Lemma loop_quiet (w : World) (scriptName serviceName : string) (n : nat) :
  forall (fuel i : nat) (cs : list Check) (tr : list Event),
    n < fuel ->
    (forall k, k < n ->
       (clock w (i + k) <? endTime w)%float = true
       /\ quietPoll w (S (i + k)) = true) ->
    (clock w (i + n) <? endTime w)%float = false ->
    exists tr',
      loop w scriptName serviceName fuel (mkStore (mkVars i cs) tr)
      = (mkStore (mkVars (i + n) (cs ++ map (recordOf w) (seq (S i) n)))
                 (tr ++ tr'), Val tt)
      /\ dispatchesOf tr' = [] /\ postsOf tr' = [] /\ summaryOf tr' = []
      /\ List.length (sleepsOf tr') = n.
Proof.
  induction n as [| n IH]; intros fuel i cs tr Hfuel Hpolls Hend;
    (destruct fuel as [| fuel]; [lia |]).
  - exists []. rewrite Nat.add_0_r in *.
    cbn [PostDeployMonitor.loop]. unfold bind at 1, get at 1.
    cbn [vars out iteration checks]. rewrite Hend.
    cbn [seq map]. rewrite !app_nil_r. repeat split.
  - destruct (Hpolls 0) as [Hclock Hquiet]; [lia |].
    rewrite Nat.add_0_r in Hclock, Hquiet.
    assert (Hrest : forall k, k < n ->
              (clock w (S i + k) <? endTime w)%float = true
              /\ quietPoll w (S (S i + k)) = true).
    { intros k Hk. replace (S i + k) with (i + S k) by lia. apply Hpolls. lia. }
    replace (i + S n) with (S i + n) in * by lia.
    unfold PostDeployMonitor.quietPoll in Hquiet.
    cbn [PostDeployMonitor.loop]. unfold bind at 1, get at 1.
    cbn [vars out iteration checks]. rewrite Hclock.
    unfold bind at 1, modify at 1, bind at 1, emit at 1, bind at 1, get at 1.
    cbn [vars out iteration checks seq map].
    unfold recordOf at 1. unfold recordOf in Hquiet.
    destruct (queryErrorRate (analytics w (S i))) as [result | message];
      [ cbn [breaching] in Hquiet; apply negb_true_iff in Hquiet;
        run_step; rewrite Hquiet | run_step ];
      match goal with
      | |- context [loop w _ _ fuel (mkStore (mkVars ?i' ?cs') ?tr1)] =>
          destruct (IH fuel i' cs' tr1) as (tr' & Hrun & Hd & Hp & Hs & Hsleeps);
          [lia | exact Hrest | exact Hend |]
      end;
      rewrite Hrun; eexists (_ :: _ :: tr');
      rewrite <- !app_assoc; cbn [app];
      (split; [reflexivity |]);
      unfold dispatchesOf, postsOf, summaryOf, sleepsOf in *;
      cbn [flat_map app List.length];
      rewrite Hd, Hp, Hs, Hsleeps; repeat split.
Qed.

(** A configured run whose polls are all quiet until the clock reaches
    [endTime] returns normally, with one record per poll. *)
Lemma program_passes_run (w : World) (n fuel : nat) :
  unconfigured (env w) = false ->
  n < fuel ->
  (forall k, k < n ->
     (clock w k <? endTime w)%float = true /\ quietPoll w (S k) = true) ->
  (clock w n <? endTime w)%float = false ->
  exists first tr',
    program w fuel
    = (mkStore (mkVars n (map (recordOf w) (seq 1 n)))
               ((([Log first] ++ tr') ++ map Summary (passLines (env w)))
                ++ map (fun c => Summary (row c)) (map (recordOf w) (seq 1 n))),
       Val tt)
    /\ dispatchesOf tr' = [] /\ postsOf tr' = [] /\ summaryOf tr' = []
    /\ List.length (sleepsOf tr') = n.
Proof.
  intros Hcfg Hfuel Hpolls Hend.
  unfold PostDeployMonitor.program, PostDeployMonitor.main, try_catch.
  unfold unconfigured in Hcfg. rewrite Hcfg.
  unfold bind at 1, console_log at 1, emit at 1. unfold bind at 1.
  unfold start. cbn [vars out].
  match goal with
  | |- context [loop w ?sn ?svc fuel (mkStore (mkVars ?i ?cs) ?tr)] =>
      destruct (loop_quiet w sn svc n fuel i cs tr Hfuel Hpolls Hend)
        as (tr' & Hrun & Hd & Hp & Hs & Hsleeps)
  end.
  rewrite Hrun. run_step. rewrite writeRows_run.
  cbn [fst snd vars out checks]. rewrite !app_nil_l.
  eexists _, tr'. split; [| repeat split; assumption].
  unfold PostDeployMonitor.passLines. cbn [map]. cbn [Nat.add].
  rewrite <- !app_assoc. reflexivity.
Qed.

Lemma rows_sleeps (cs : list Check) :
  sleepsOf (map (fun c => Summary (row c)) cs) = [].
Proof.
  unfold sleepsOf. induction cs as [| c cs IH]; cbn [map flat_map app];
    [reflexivity | exact IH].
Qed.

(** The readings of such a run: status 0, the pass report, one sleep per
    poll, and no rollback. *)
Lemma program_passes (w : World) (n fuel : nat) :
  unconfigured (env w) = false ->
  n < fuel ->
  (forall k, k < n ->
     (clock w k <? endTime w)%float = true /\ quietPoll w (S k) = true) ->
  (clock w n <? endTime w)%float = false ->
  status w fuel = Some 0%Z
  /\ records w fuel = map (recordOf w) (seq 1 n)
  /\ dispatchesOf (trace w fuel) = []
  /\ postsOf (trace w fuel) = []
  /\ List.length (sleepsOf (trace w fuel)) = n
  /\ summaryOf (trace w fuel)
     = (passLines (env w) ++ map row (map (recordOf w) (seq 1 n)))%list.
Proof.
  intros Hcfg Hfuel Hpolls Hend.
  destruct (program_passes_run w n fuel Hcfg Hfuel Hpolls Hend)
    as (first & tr' & Hrun & Hd & Hp & Hs & Hsleeps).
  unfold PostDeployMonitor.status, PostDeployMonitor.records, PostDeployMonitor.trace.
  rewrite Hrun. cbn [fst snd vars out checks exitCode].
  set (rows := map (recordOf w) (seq 1 n)).
  destruct (rows_trace rows) as (Hrd & Hrp & Hrs).
  destruct (summary_lines (passLines (env w))) as (Hls & Hld & Hlp & Hlz).
  repeat split.
  - rewrite !dispatchesOf_app, Hd, Hrd, Hld. reflexivity.
  - rewrite !postsOf_app, Hp, Hrp, Hlp. reflexivity.
  - pose proof (rows_sleeps rows) as Hrz.
    unfold sleepsOf in *. rewrite !flat_map_app, Hlz, Hrz. cbn [flat_map app].
    rewrite !app_nil_r. exact Hsleeps.
  - rewrite !summaryOf_app, Hs, Hrs, Hls. reflexivity.
Qed.

(** C1: in every run, complete or still polling, rollback is asked for at
    most once (one call of the dispatcher, at most one POST); when it is, the
    most recent record is a successfully sampled one with [requests > 0] and
    [errorRate > errorThreshold]; a run whose most recent record is a failed
    query has asked for none. *)
Theorem rollback_at_most_once_and_only_on_breach (w : World) (fuel : nat) :
  (List.length (dispatchesOf (trace w fuel)) <= 1)%nat
  /\ (List.length (postsOf (trace w fuel)) <= 1)%nat
  /\ (dispatchesOf (trace w fuel) <> [] \/ postsOf (trace w fuel) <> [] ->
      exists prefix i requests errors errorRate,
        records w fuel = (prefix ++ [CheckOk i requests errors errorRate])%list
        /\ (zero <? requests)%float = true
        /\ (errorThreshold (env w) <? errorRate)%float = true)
  /\ (forall prefix i reason,
        records w fuel = (prefix ++ [CheckError i reason])%list ->
        dispatchesOf (trace w fuel) = [] /\ postsOf (trace w fuel) = []).
Proof.
  unfold PostDeployMonitor.trace, PostDeployMonitor.records.
  destruct (program_shaped w fuel)
    as [[_ Hrun] | [(_ & [Hd Hp] & _) | (_ & (Hd & Hp & Hlast) & _)]].
  - rewrite Hrun. cbn. repeat split; try lia.
    + intros [H | H]; contradiction H; reflexivity.
  - rewrite Hd, Hp. cbn. repeat split; try lia.
    intros [H | H]; contradiction H; reflexivity.
  - rewrite Hd. cbn [List.length]. repeat split; try lia.
    + intros _. exact Hlast.
    + destruct Hlast as (prefix' & i' & rq & er & rate & Hrec & _).
      rewrite Hrec in H. apply app_inj_tail in H. destruct H as [_ H].
      discriminate H.
    + destruct Hlast as (prefix' & i' & rq & er & rate & Hrec & _).
      rewrite Hrec in H. apply app_inj_tail in H. destruct H as [_ H].
      discriminate H.
Qed.

(** C7: when every query fails, a configured run polls until the clock
    reaches the end of the monitor duration, never asks for rollback, ends
    with the pass report and status 0, and has recorded one failed query per
    poll and nothing else. *)
Theorem failing_metrics_pass_after_full_duration (w : World) (n fuel : nat) :
  unconfigured (env w) = false ->
  (forall i, exists reason, queryErrorRate (analytics w i) = Throw reason) ->
  forallb (fun k => (clock w k <? endTime w)%float) (seq 0 n) = true ->
  (clock w n <? endTime w)%float = false ->
  n < fuel ->
  status w fuel = Some 0%Z
  /\ dispatchesOf (trace w fuel) = []
  /\ postsOf (trace w fuel) = []
  /\ List.length (sleepsOf (trace w fuel)) = n
  /\ List.length (records w fuel) = n
  /\ forallb isError (records w fuel) = true
  /\ summaryOf (trace w fuel)
     = (passLines (env w) ++ map row (records w fuel))%list.
Proof.
  intros Hcfg Hfail Hclock Hend Hfuel.
  assert (Hpolls : forall k, k < n ->
            (clock w k <? endTime w)%float = true /\ quietPoll w (S k) = true).
  { intros k Hk. split.
    - rewrite forallb_forall in Hclock. apply Hclock. apply in_seq. lia.
    - unfold PostDeployMonitor.quietPoll, recordOf.
      destruct (Hfail (S k)) as [reason ->]. reflexivity. }
  destruct (program_passes w n fuel Hcfg Hfuel Hpolls Hend)
    as (Hstatus & Hrecords & Hd & Hp & Hsleeps & Hsummary).
  rewrite Hrecords. repeat split; try assumption.
  - rewrite length_map, length_seq. reflexivity.
  - apply forallb_forall. intros c Hc. apply in_map_iff in Hc.
    destruct Hc as (i & <- & _). unfold recordOf.
    destruct (Hfail i) as [reason ->]. reflexivity.
Qed.

(** C3, as the code has it: the status is non-zero only when a required
    identity is missing (the run is refused before any poll) or when the most
    recent sample breached and rollback was asked for, and it is then 1; a
    configured run whose polls stay quiet until the monitor duration has
    elapsed ends with status 0, failed queries included; and no run without a
    breaching record ends with anything but 0. *)
Theorem monitor_exits_nonzero_only_unconfigured_or_breached (w : World) (fuel : nat) :
  (forall code, status w fuel = Some code -> code <> 0%Z ->
     code = 1%Z
     /\ ((unconfigured (env w) = true
          /\ records w fuel = [] /\ dispatchesOf (trace w fuel) = [])
         \/ (unconfigured (env w) = false
             /\ dispatchesOf (trace w fuel)
                = [(orElse (SERVICE_NAME (env w)) "", environment (env w))]
             /\ exists prefix i requests errors errorRate,
                  records w fuel
                  = (prefix ++ [CheckOk i requests errors errorRate])%list
                  /\ (zero <? requests)%float = true
                  /\ (errorThreshold (env w) <? errorRate)%float = true)))
  /\ (forall n,
        unconfigured (env w) = false ->
        n < fuel ->
        (forall k, k < n ->
           (clock w k <? endTime w)%float = true /\ quietPoll w (S k) = true) ->
        (clock w n <? endTime w)%float = false ->
        status w fuel = Some 0%Z)
  /\ (unconfigured (env w) = false ->
      forallb (fun c => negb (breaching (errorThreshold (env w)) c)) (records w fuel)
      = true ->
      status w fuel = Some 0%Z \/ status w fuel = None).
Proof.
  split; [| split].
  - unfold PostDeployMonitor.status, PostDeployMonitor.trace, PostDeployMonitor.records.
    destruct (program_shaped w fuel)
      as [[Hcfg Hrun] | [(Hcfg & _ & Ho) | (Hcfg & (Hd & Hp & Hlast) & Ho)]].
    + rewrite Hrun. cbn. intros code Hcode _. injection Hcode as <-.
      split; [reflexivity |]. left. repeat split. exact Hcfg.
    + intros code Hcode Hnz. destruct Ho as [Ho | Ho]; rewrite Ho in Hcode;
        cbn in Hcode; [injection Hcode as <-; contradiction Hnz; reflexivity
                      | discriminate Hcode].
    + intros code Hcode Hnz. destruct Ho as [Ho | Ho]; rewrite Ho in Hcode;
        cbn in Hcode; injection Hcode as <-;
        [| contradiction Hnz; reflexivity].
      split; [reflexivity |]. right. repeat split; assumption.
  - intros n Hcfg Hfuel Hpolls Hend.
    apply (program_passes w n fuel Hcfg Hfuel Hpolls Hend).
  - unfold PostDeployMonitor.status, PostDeployMonitor.records.
    intros Hcfg Hnone.
    destruct (program_shaped w fuel)
      as [[Hcfg' _] | [(_ & _ & Ho) | (_ & (_ & _ & Hlast) & _)]].
    + rewrite Hcfg in Hcfg'. discriminate Hcfg'.
    + destruct Ho as [-> | ->]; [left | right]; reflexivity.
    + destruct Hlast as (prefix & i & rq & er & rate & Hrec & Htraffic & Hrate).
      rewrite Hrec, forallb_app in Hnone. cbn in Hnone.
      unfold breach in Hnone. rewrite Htraffic, Hrate in Hnone.
      cbn in Hnone. rewrite andb_false_r in Hnone. discriminate Hnone.
Qed.

(** *** Further properties of the supervisor *)

(** [n] quiet polls in a row: the loop arrives, [n] units of fuel later, at
    the state with [n] more records and sleeps. *)
Lemma loop_skip (w : World) (scriptName serviceName : string) (n : nat) :
  forall (fuel i : nat) (cs : list Check) (tr : list Event),
    (forall k, k < n ->
       (clock w (i + k) <? endTime w)%float = true
       /\ quietPoll w (S (i + k)) = true) ->
    exists tr',
      loop w scriptName serviceName (n + fuel) (mkStore (mkVars i cs) tr)
      = loop w scriptName serviceName fuel
          (mkStore (mkVars (i + n) (cs ++ map (recordOf w) (seq (S i) n)))
                   (tr ++ tr'))
      /\ dispatchesOf tr' = [] /\ postsOf tr' = [] /\ summaryOf tr' = []
      /\ List.length (sleepsOf tr') = n.
Proof.
  induction n as [| n IH]; intros fuel i cs tr Hpolls.
  - exists []. rewrite Nat.add_0_r. cbn [seq map Nat.add].
    rewrite !app_nil_r. repeat split.
  - destruct (Hpolls 0) as [Hclock Hquiet]; [lia |].
    rewrite Nat.add_0_r in Hclock, Hquiet.
    assert (Hrest : forall k, k < n ->
              (clock w (S i + k) <? endTime w)%float = true
              /\ quietPoll w (S (S i + k)) = true).
    { intros k Hk. replace (S i + k) with (i + S k) by lia. apply Hpolls. lia. }
    replace (i + S n) with (S i + n) by lia.
    unfold PostDeployMonitor.quietPoll in Hquiet.
    cbn [Nat.add PostDeployMonitor.loop]. unfold bind at 1, get at 1.
    cbn [vars out iteration checks]. rewrite Hclock.
    unfold bind at 1, modify at 1, bind at 1, emit at 1, bind at 1, get at 1.
    cbn [vars out iteration checks seq map].
    unfold recordOf at 1. unfold recordOf in Hquiet.
    destruct (queryErrorRate (analytics w (S i))) as [result | message];
      [ cbn [breaching] in Hquiet; apply negb_true_iff in Hquiet;
        run_step; rewrite Hquiet | run_step ];
      match goal with
      | |- context [loop w _ _ (n + fuel) (mkStore (mkVars ?i' ?cs') ?tr1)] =>
          destruct (IH fuel i' cs' tr1 Hrest) as (tr' & Hrun & Hd & Hp & Hs & Hsleeps)
      end;
      rewrite Hrun; eexists (_ :: _ :: tr');
      rewrite <- !app_assoc; cbn [app];
      (split; [reflexivity |]);
      unfold dispatchesOf, postsOf, summaryOf, sleepsOf in *;
      cbn [flat_map app List.length];
      rewrite Hd, Hp, Hs, Hsleeps; repeat split.
Qed.

(** The poll that breaches: the loop writes the rollback report over all
    records, then hands over to the dispatcher and [process.exit(1)]. *)
Lemma loop_breach_step (w : World) (scriptName serviceName : string)
  (fuel i : nat) (cs : list Check) (tr : list Event) (result : Sample) :
  (clock w i <? endTime w)%float = true ->
  queryErrorRate (analytics w (S i)) = Ok result ->
  breach (errorThreshold (env w)) (requests result) (errorRate result) = true ->
  exists tr',
    loop w scriptName serviceName (S fuel) (mkStore (mkVars i cs) tr)
    = (_ <- dispatchRollback w serviceName (environment (env w)) ;; exit 1)
        (mkStore (mkVars (S i) (cs ++ [recordOf w (S i)])) (tr ++ tr'))
    /\ dispatchesOf tr' = [] /\ postsOf tr' = []
    /\ List.length (sleepsOf tr') = 1
    /\ summaryOf tr'
       = ([ "## Post-Deploy Monitor"; "";
            ("**ROLLBACK TRIGGERED** for `" ++ serviceName ++ "` (`"
             ++ environment (env w) ++ "`)")%string;
            "";
            ("Error rate " ++ toFixed (errorRate result * 100)%float 2
             ++ "% exceeded threshold "
             ++ toFixed (errorThreshold (env w) * 100)%float 1 ++ "% at check "
             ++ string_of_nat (S i) ++ ".")%string;
            ""; "| Check | Requests | Errors | Rate |";
            "|-------|----------|--------|------|" ]
          ++ map row (cs ++ [recordOf w (S i)]))%list.
Proof.
  intros Hclock Hquery Hbreach.
  cbn [PostDeployMonitor.loop]. unfold bind at 1, get at 1.
  cbn [vars out iteration checks]. rewrite Hclock.
  unfold bind at 1, modify at 1, bind at 1, emit at 1, bind at 1, get at 1.
  cbn [vars out iteration checks].
  unfold recordOf. rewrite Hquery.
  unfold console_log at 1, bind at 1, emit at 1. cbn [vars out].
  unfold push at 1, bind at 1, modify at 1. cbn [vars out iteration checks].
  rewrite Hbreach.
  unfold console_error at 1, bind at 1, emit at 1. cbn [vars out].
  do 8 (unfold writeSummary at 1, bind at 1, emit at 1; cbn [vars out]).
  unfold bind at 1, get at 1. cbn [vars out checks].
  unfold bind at 1. rewrite writeRows_run. cbn [vars out].
  eexists (_ :: _ :: _ :: _ :: _ :: _ :: _ :: _ :: _ :: _ :: _ :: _).
  rewrite <- !app_assoc. cbn [app].
  split; [reflexivity |].
  destruct (rows_trace (cs ++ [CheckOk (S i) (requests result) (errors result)
                                       (errorRate result)])) as (Hd & Hp & Hs).
  pose proof (rows_sleeps (cs ++ [CheckOk (S i) (requests result) (errors result)
                                          (errorRate result)])) as Hz.
  unfold dispatchesOf, postsOf, summaryOf, sleepsOf in *.
  cbn [flat_map app]. rewrite Hd, Hp, Hs, Hz. repeat split.
Qed.

(** A configured run whose first [n] polls are quiet and whose next poll
    breaches, the clock still short of [endTime]: what is left of the run is
    the dispatcher, then [process.exit(1)], under the outermost handler. *)
Lemma program_breach_run (w : World) (n fuel : nat) (result : Sample) :
  unconfigured (env w) = false ->
  n < fuel ->
  (forall k, k < n ->
     (clock w k <? endTime w)%float = true /\ quietPoll w (S k) = true) ->
  (clock w n <? endTime w)%float = true ->
  queryErrorRate (analytics w (S n)) = Ok result ->
  breach (errorThreshold (env w)) (requests result) (errorRate result) = true ->
  exists tr,
    program w fuel
    = try_catch
        (_ <- dispatchRollback w (orElse (SERVICE_NAME (env w)) "")
                (environment (env w)) ;; exit 1)
        (PostDeployMonitor.onError)
        (mkStore (mkVars (S n) (map (recordOf w) (seq 1 (S n)))) tr)
    /\ dispatchesOf tr = [] /\ postsOf tr = []
    /\ List.length (sleepsOf tr) = S n
    /\ summaryOf tr
       = (rollbackLines (env w) (S n) (errorRate result)
          ++ map row (map (recordOf w) (seq 1 (S n))))%list.
Proof.
  intros Hcfg Hfuel Hpolls Hclock Hquery Hbreach.
  unfold PostDeployMonitor.program, PostDeployMonitor.main.
  unfold unconfigured in Hcfg. rewrite Hcfg.
  replace fuel with (n + S (fuel - S n)) by lia.
  unfold try_catch.
  unfold bind at 1, console_log at 1, emit at 1. unfold bind at 1.
  unfold start. cbn [vars out]. rewrite app_nil_l.
  match goal with
  | |- context [loop w ?sn ?svc _ (mkStore (mkVars ?i ?cs) ?tr)] =>
      destruct (loop_skip w sn svc n (S (fuel - S n)) i cs tr Hpolls)
        as (tr1 & Hrun1 & Hd1 & Hp1 & Hs1 & Hz1);
      rewrite Hrun1;
      destruct (loop_breach_step w sn svc (fuel - S n) (i + n)
                  (cs ++ map (recordOf w) (seq (S i) n)) (tr ++ tr1) result
                  Hclock Hquery Hbreach)
        as (tr2 & Hrun2 & Hd2 & Hp2 & Hz2 & Hs2);
      rewrite Hrun2
  end.
  cbn [Nat.add app] in *.
  replace (map (recordOf w) (seq 1 n) ++ [recordOf w (S n)])%list
    with (map (recordOf w) (seq 1 (S n))) in *
    by (rewrite seq_S, map_app; reflexivity).
  match goal with
  | |- context [mkStore (mkVars _ _) ?t] => exists t
  end.
  split; [| split; [| split; [| split]]].
  - unfold bind, exit.
    destruct (dispatchRollback w _ _ _) as [s' [b | e | c |]]; reflexivity.
  - unfold dispatchesOf in *. cbn [flat_map app]. rewrite !flat_map_app.
    rewrite Hd1, Hd2. reflexivity.
  - unfold postsOf in *. cbn [flat_map app]. rewrite !flat_map_app.
    rewrite Hp1, Hp2. reflexivity.
  - unfold sleepsOf in *. cbn [flat_map app]. rewrite !flat_map_app.
    rewrite !length_app, Hz1, Hz2. lia.
  - unfold summaryOf in *. cbn [flat_map app]. rewrite !flat_map_app.
    rewrite Hs1, Hs2. reflexivity.
Qed.

(** X1: quiet polls (failed queries included) do not mask a breach.  When
    the first [n] polls are quiet and poll [n+1], taken before the end of the
    monitor duration, breaches, the run stops there: it has slept and recorded
    [n+1] times, written the rollback report naming check [n+1] over all
    records, and called the dispatcher once for the configured service and
    environment; and whenever the dispatcher returns, the status is 1, nothing
    follows the rollback report, and a POST went out exactly when a token was
    set. *)
Theorem breach_after_quiet_polls_rolls_back
  (w : World) (n fuel : nat) (result : Sample) :
  unconfigured (env w) = false ->
  n < fuel ->
  (forall k, k < n ->
     (clock w k <? endTime w)%float = true /\ quietPoll w (S k) = true) ->
  (clock w n <? endTime w)%float = true ->
  queryErrorRate (analytics w (S n)) = Ok result ->
  breach (errorThreshold (env w)) (requests result) (errorRate result) = true ->
  records w fuel = map (recordOf w) (seq 1 (S n))
  /\ dispatchesOf (trace w fuel)
     = [(orElse (SERVICE_NAME (env w)) "", environment (env w))]
  /\ List.length (sleepsOf (trace w fuel)) = S n
  /\ exists tail,
       summaryOf (trace w fuel)
       = (rollbackLines (env w) (S n) (errorRate result)
          ++ map row (records w fuel) ++ tail)%list
       /\ (dispatchReturns w = true ->
           tail = []
           /\ status w fuel = Some 1%Z
           /\ postsOf (trace w fuel)
              = if falsy (GITHUB_TOKEN (env w)) then []
                else [(orElse (SERVICE_NAME (env w)) "", environment (env w))]).
Proof.
  intros Hcfg Hfuel Hpolls Hclock Hquery Hbreach.
  destruct (program_breach_run w n fuel result Hcfg Hfuel Hpolls Hclock Hquery Hbreach)
    as (tr & Hrun & Hd & Hp & Hz & Hs).
  unfold PostDeployMonitor.records, PostDeployMonitor.trace, PostDeployMonitor.status.
  rewrite Hrun. clear Hrun.
  unfold PostDeployMonitor.dispatchReturns, try_catch, dispatchRollback,
    PostDeployMonitor.onError.
  destruct (falsy (GITHUB_TOKEN (env w)));
    [| destruct (github w) as [e | [|] code [body | e]]];
    run_step; cbn [negb orb fst snd vars out checks exitCode];
    (split; [reflexivity |]);
    (split; [rewrite !dispatchesOf_app, Hd; reflexivity |]);
    (split; [unfold sleepsOf in *; rewrite !flat_map_app, !length_app, Hz;
             cbn; lia |]);
    rewrite !summaryOf_app, !postsOf_app, Hs, Hp;
    simpl (summaryOf [_]); simpl (postsOf [_]); rewrite ?app_nil_r;
    first [ exists []; rewrite app_nil_r; split;
            [reflexivity | intros _; repeat split]
          | eexists; rewrite <- !app_assoc; split;
            [reflexivity | intros Hfalse; discriminate Hfalse] ].
Qed.

Lemma numbered_quiet_events (w : World) (i : nat) (cs : list Check)
  (tr extra : list Event) :
  sleepsOf extra = [] ->
  numbered w (mkStore (mkVars i cs) tr) ->
  numbered w (mkStore (mkVars i cs) (tr ++ extra)).
Proof.
  unfold numbered, sleepsOf. cbn [vars out checks iteration].
  intros Hextra [Hcs Hz]. rewrite flat_map_app, Hextra, app_nil_r.
  split; assumption.
Qed.

Lemma numbered_poll (w : World) (i : nat) (cs : list Check)
  (tr extra : list Event) (ms : float) :
  sleepsOf extra = [] ->
  numbered w (mkStore (mkVars i cs) tr) ->
  numbered w (mkStore (mkVars (S i) (cs ++ [recordOf w (S i)]))
                      (tr ++ Sleep ms :: extra)).
Proof.
  unfold numbered, sleepsOf. cbn [vars out checks iteration].
  intros Hextra [Hcs Hz].
  rewrite flat_map_app. cbn [flat_map app].
  rewrite Hextra, length_app, Hz, seq_S, map_app, Hcs.
  cbn. split; [reflexivity | lia].
Qed.

Lemma loop_numbered (w : World) (scriptName serviceName : string) (fuel : nat) :
  forall s : Store Vars,
    numbered w s -> numbered w (fst (loop w scriptName serviceName fuel s)).
Proof.
  induction fuel as [| fuel IH]; intros [[i cs] tr] Hs.
  - exact Hs.
  - cbn [PostDeployMonitor.loop]. unfold bind at 1, get at 1.
    cbn [vars out iteration checks].
    destruct (clock w i <? endTime w)%float; [| exact Hs].
    unfold bind at 1, modify at 1, bind at 1, emit at 1, bind at 1, get at 1.
    cbn [vars out iteration checks].
    pose proof (numbered_poll w i cs tr) as Hpoll.
    unfold recordOf in Hpoll.
    destruct (queryErrorRate (analytics w (S i))) as [result | message].
    + run_step.
      destruct (breach _ _ _).
      * rewrite writeRows_run. cbn [vars out].
        unfold dispatchRollback.
        destruct (falsy (GITHUB_TOKEN (env w)));
          [| destruct (github w) as [e | [|] code [body | e]]];
          run_step; cbn [negb fst snd vars out checks iteration];
          rewrite <- !app_assoc; cbn [app];
          (apply Hpoll; [| exact Hs]);
          unfold sleepsOf; cbn [app flat_map]; rewrite ?flat_map_app;
          cbn [app flat_map]; rewrite ?app_nil_r; apply rows_sleeps.
      * apply IH. rewrite <- !app_assoc. cbn [app].
        apply Hpoll; [reflexivity | exact Hs].
    + run_step. apply IH. rewrite <- !app_assoc. cbn [app].
      apply Hpoll; [reflexivity | exact Hs].
Qed.

Lemma program_numbered (w : World) (fuel : nat) :
  numbered w (fst (program w fuel)).
Proof.
  unfold PostDeployMonitor.program, PostDeployMonitor.main, try_catch.
  destruct (falsy (SCRIPT_NAME (env w)) || falsy (SERVICE_NAME (env w))).
  - split; reflexivity.
  - unfold bind at 1, console_log at 1, emit at 1. unfold bind at 1.
    match goal with
    | |- context [loop w ?sn ?svc fuel ?s] =>
        pose proof (loop_numbered w sn svc fuel s) as Hloop;
        destruct (loop w sn svc fuel s) as [[[i cs] tr] o]
    end.
    cbn [fst] in Hloop.
    assert (Hs : numbered w (mkStore (mkVars i cs) tr))
      by (apply Hloop; split; reflexivity).
    destruct o as [[] | e | c |]; try exact Hs.
    + run_step. rewrite writeRows_run. cbn [fst vars out].
      rewrite <- !app_assoc. apply numbered_quiet_events; [| exact Hs].
      unfold sleepsOf. cbn [app flat_map]. apply rows_sleeps.
    + unfold PostDeployMonitor.onError. run_step.
      rewrite <- !app_assoc. apply numbered_quiet_events; [reflexivity | exact Hs].
Qed.

(** X2: in every run, complete or not, the records are those of polls
    1, 2, ..., in order and without gaps, record [k] holding the outcome of
    the [k]-th query under the number [k]; and the run has slept once per
    record. *)
Theorem records_are_numbered_polls (w : World) (fuel : nat) :
  records w fuel = map (recordOf w) (seq 1 (List.length (records w fuel)))
  /\ List.length (sleepsOf (trace w fuel)) = List.length (records w fuel).
Proof.
  destruct (program_numbered w fuel) as [Hcs Hz].
  unfold PostDeployMonitor.records, PostDeployMonitor.trace.
  assert (Hlen : List.length (checks (vars (fst (program w fuel))))
                 = iteration (vars (fst (program w fuel)))).
  { rewrite Hcs at 1. rewrite length_map, length_seq. reflexivity. }
  rewrite Hlen. split; assumption.
Qed.

(** X3: windows without traffic are never evidence.  If every poll either
    fails or returns a sample whose [requests] is not above 0, a configured
    run passes at the end of the monitor duration, whatever the error counts
    and whatever the threshold, and asks for no rollback. *)
Theorem no_traffic_never_rolls_back (w : World) (n fuel : nat) :
  unconfigured (env w) = false ->
  (forall i result,
      queryErrorRate (analytics w i) = Ok result ->
      (zero <? requests result)%float = false) ->
  forallb (fun k => (clock w k <? endTime w)%float) (seq 0 n) = true ->
  (clock w n <? endTime w)%float = false ->
  n < fuel ->
  status w fuel = Some 0%Z
  /\ dispatchesOf (trace w fuel) = []
  /\ postsOf (trace w fuel) = []
  /\ List.length (records w fuel) = n
  /\ summaryOf (trace w fuel)
     = (passLines (env w) ++ map row (records w fuel))%list.
Proof.
  intros Hcfg Hidle Hclock Hend Hfuel.
  assert (Hpolls : forall k, k < n ->
            (clock w k <? endTime w)%float = true /\ quietPoll w (S k) = true).
  { intros k Hk. split.
    - rewrite forallb_forall in Hclock. apply Hclock. apply in_seq. lia.
    - unfold PostDeployMonitor.quietPoll, recordOf.
      destruct (queryErrorRate (analytics w (S k))) as [result | message] eqn:Hq;
        [| reflexivity].
      cbn [breaching]. unfold breach. rewrite (Hidle _ _ Hq). reflexivity. }
  destruct (program_passes w n fuel Hcfg Hfuel Hpolls Hend)
    as (Hstatus & Hrecords & Hd & Hp & _ & Hsummary).
  rewrite Hrecords. repeat split; try assumption.
  rewrite length_map, length_seq. reflexivity.
Qed.

(** X7: an unparsable threshold opens the net.  When [ERROR_THRESHOLD]
    parses to [NaN], no run asks for rollback, whatever the samples; and a
    configured run passes at the end of the monitor duration. *)
Theorem nan_threshold_never_rolls_back (w : World) (fuel : nat) :
  is_nan (errorThreshold (env w)) = true ->
  dispatchesOf (trace w fuel) = []
  /\ postsOf (trace w fuel) = []
  /\ (forall n,
        unconfigured (env w) = false ->
        forallb (fun k => (clock w k <? endTime w)%float) (seq 0 n) = true ->
        (clock w n <? endTime w)%float = false ->
        n < fuel ->
        status w fuel = Some 0%Z /\ List.length (records w fuel) = n).
Proof.
  intros Hnan.
  assert (Hnever : forall x, (errorThreshold (env w) <? x)%float = false)
    by (intros x; apply (nan_compares_false _ x Hnan)).
  split; [| split].
  - unfold PostDeployMonitor.trace.
    destruct (program_shaped w fuel)
      as [[_ ->] | [(_ & [Hd _] & _) | (_ & (_ & _ & Hlast) & _)]];
      [reflexivity | exact Hd |].
    destruct Hlast as (prefix & i & rq & er & rate & _ & _ & Hrate).
    rewrite Hnever in Hrate. discriminate Hrate.
  - unfold PostDeployMonitor.trace.
    destruct (program_shaped w fuel)
      as [[_ ->] | [(_ & [_ Hp] & _) | (_ & (_ & _ & Hlast) & _)]];
      [reflexivity | exact Hp |].
    destruct Hlast as (prefix & i & rq & er & rate & _ & _ & Hrate).
    rewrite Hnever in Hrate. discriminate Hrate.
  - intros n Hcfg Hclock Hend Hfuel.
    assert (Hpolls : forall k, k < n ->
              (clock w k <? endTime w)%float = true /\ quietPoll w (S k) = true).
    { intros k Hk. split.
      - rewrite forallb_forall in Hclock. apply Hclock. apply in_seq. lia.
      - unfold PostDeployMonitor.quietPoll.
        destruct (recordOf w (S k)); [| reflexivity].
        cbn [breaching]. unfold breach. rewrite Hnever, andb_false_r.
        reflexivity. }
    destruct (program_passes w n fuel Hcfg Hfuel Hpolls Hend)
      as (Hstatus & Hrecords & _).
    split; [exact Hstatus |].
    rewrite Hrecords, length_map, length_seq. reflexivity.
Qed.

End RollbackSupervisor.

(** With the analytics API unreachable, the one-minute watch polls twice and
    passes. *)
Lemma failing_metrics_pass_witness :
  PostDeployMonitor.status parseNumber parseNumber noNumber noFixed blindWorld 3
  = Some 0%Z
  /\ List.length
       (PostDeployMonitor.records parseNumber parseNumber noNumber noFixed blindWorld 3)
     = 2.
Proof.
  destruct (failing_metrics_pass_after_full_duration
              parseNumber parseNumber noNumber noFixed blindWorld 2 3)
    as (Hstatus & _ & _ & _ & Hlength & _).
  - reflexivity.
  - intros i. exists "fetch failed". reflexivity.
  - reflexivity.
  - reflexivity.
  - lia.
  - split; [exact Hstatus | exact Hlength].
Defined.

(** C3 as stated fails: a run without [SCRIPT_NAME] exits with status 1
    although nothing was polled and no rollback was asked for. *)
Lemma unconfigured_run_exits_nonzero_without_rollback :
  PostDeployMonitor.status parseNumber parseNumber noNumber noFixed unnamedWorld 3
  = Some 1%Z
  /\ PostDeployMonitor.records parseNumber parseNumber noNumber noFixed unnamedWorld 3
     = []
  /\ dispatchesOf
       (PostDeployMonitor.trace parseNumber parseNumber noNumber noFixed unnamedWorld 3)
     = []
  /\ postsOf
       (PostDeployMonitor.trace parseNumber parseNumber noNumber noFixed unnamedWorld 3)
     = [].
Proof. repeat split. Qed.

(** The quiet one-minute watch of a healthy deployment ends with status 0. *)
Lemma monitor_exit_status_witness :
  PostDeployMonitor.status parseNumber parseNumber noNumber noFixed healthyWorld 3
  = Some 0%Z.
Proof.
  apply (proj1 (proj2 (monitor_exits_nonzero_only_unconfigured_or_breached
                         parseNumber parseNumber noNumber noFixed healthyWorld 3))
           2).
  - reflexivity.
  - lia.
  - intros [| [| k]] Hk; [split; reflexivity | split; reflexivity | lia].
  - reflexivity.
Defined.

(** C2 fails on the code: the first window breaches, the POST to GitHub
    rejects, and the run, having written the rollback report and called the
    dispatcher, falls to the outermost handler, writes a pass line and ends
    with status 0. *)
Lemma rejected_dispatch_ends_in_success
  (Number_toString : float -> string) (toFixed : float -> nat -> string) :
  PostDeployMonitor.records parseNumber parseNumber Number_toString toFixed
    dispatchOutage 3
  = [PostDeployMonitor.CheckOk 1 100 50 0.5]
  /\ PostDeployMonitor.breaching five_percent (PostDeployMonitor.CheckOk 1 100 50 0.5)
     = true
  /\ dispatchesOf
       (PostDeployMonitor.trace parseNumber parseNumber Number_toString toFixed
          dispatchOutage 3)
     = [("smoltbot", "production")]
  /\ List.last
       (summaryOf
          (PostDeployMonitor.trace parseNumber parseNumber Number_toString toFixed
             dispatchOutage 3)) ""
     = "> **PASS** (fail-open) — script error: fetch failed"
  /\ nth 2
       (summaryOf
          (PostDeployMonitor.trace parseNumber parseNumber Number_toString toFixed
             dispatchOutage 3)) ""
     = "**ROLLBACK TRIGGERED** for `smoltbot` (`production`)"
  /\ PostDeployMonitor.status parseNumber parseNumber Number_toString toFixed
       dispatchOutage 3
     = Some 0%Z.
Proof. repeat split. Qed.

(** The same breach with a dispatch that answers, whether GitHub accepts it
    (204) or refuses it (422), ends with status 1. *)
Lemma answered_dispatch_ends_in_failure
  (Number_toString : float -> string) (toFixed : float -> nat -> string)
  (ok : bool) (code : Z) (body : string) :
  PostDeployMonitor.status parseNumber parseNumber Number_toString toFixed
    (PostDeployMonitor.mkWorld monitorEnv 0%float halfMinutes
       (fun _ => PostDeployMonitor.counted 100 50)
       (PostDeployMonitor.GhResponse ok code (Ok body))) 3
  = Some 1%Z.
Proof. destruct ok; reflexivity. Qed.

(** ** The risk scorer *)

Section RiskScorer.

Import ConfidenceScore.

Variable JSON_parse : string -> Try Json.
Variable Number_toString : float -> string.
Variable Math_round : float -> float.

Local Abbreviation program := (ConfidenceScore.program JSON_parse Number_toString Math_round).
Local Abbreviation report := (ConfidenceScore.report JSON_parse Number_toString Math_round).
Local Abbreviation status := (ConfidenceScore.status JSON_parse Number_toString Math_round).
Local Abbreviation analyse := (ConfidenceScore.analyse Number_toString Math_round).
Local Abbreviation historySignal := (ConfidenceScore.historySignal Number_toString Math_round).
Local Abbreviation staleFactor := (ConfidenceScore.staleFactor Number_toString Math_round).
Local Abbreviation deployFlags := (ConfidenceScore.deployFlags JSON_parse).
Local Abbreviation expectedReport := (ConfidenceScore.expectedReport JSON_parse Number_toString Math_round).

Lemma writeFactors_run (fs : list Factor) (s : Store unit) :
  writeFactors fs s
  = (mkStore (vars s) (out s ++ map (fun f => Summary (factorRow f)) fs), Val tt).
Proof.
  revert s. induction fs as [| f fs IH]; intros s.
  - cbn. rewrite app_nil_r. destruct s; reflexivity.
  - cbn [writeFactors map]. unfold bind, writeSummary, emit.
    rewrite IH. cbn [vars out]. rewrite <- app_assoc. reflexivity.
Qed.

(** Every run returns normally, having written that report and nothing
    else. *)
Lemma program_run (w : World) :
  program w = (mkStore tt (map Summary (expectedReport w)), Val tt).
Proof.
  unfold ConfidenceScore.program, ConfidenceScore.main, try_catch,
    ConfidenceScore.expectedReport, unidentified.
  destruct (falsy (SOURCE_REPO (env w)) || falsy (SOURCE_REF (env w))).
  - reflexivity.
  - destruct (analyse w _ _ _) as [a | message]; [| reflexivity].
    unfold scoredReport, factorLines.
    destruct (0 <? List.length (factors a))%nat.
    + unfold bind, writeSummary, emit. cbn [vars out start].
      rewrite writeFactors_run. cbn [vars out map app].
      rewrite map_map. reflexivity.
    + reflexivity.
Qed.

Lemma report_run (w : World) :
  report w = expectedReport w /\ status w = Some 0%Z.
Proof.
  unfold ConfidenceScore.report, ConfidenceScore.status, ConfidenceScore.trace.
  rewrite program_run. cbn [fst snd out exitCode].
  split; [apply summary_lines | reflexivity].
Qed.

Lemma factorLines_plain (fs : list Factor) :
  Forall (fun l => isScoreLine l = false) (factorLines fs)
  /\ filter (String.eqb header) (factorLines fs) = []
  /\ filter isScoreLine (factorLines fs) = [].
Proof.
  unfold factorLines. destruct (0 <? List.length fs)%nat.
  - split; [| split].
    + repeat constructor. apply Forall_map, Forall_forall. reflexivity.
    + cbn [filter]. cbn. induction fs as [| f fs IH]; [reflexivity | exact IH].
    + cbn. induction fs as [| f fs IH]; [reflexivity | exact IH].
  - repeat split. repeat constructor.
Qed.

Lemma scoreLine_is_score_line (score : Z) : isScoreLine (scoreLine score) = true.
Proof.
  unfold isScoreLine, scoreLine. cbn.
  destruct (string_of_Z score ++ "** / 100"); reflexivity.
Qed.

(** C6: whatever the world, the run writes one score line, third in the
    report, and its score is between 0 and 100; the outermost handler would
    report 50. *)
Theorem reported_score_within_0_100 (w : World) :
  (exists (score : Z) (rest : list string),
      (0 <= score <= 100)%Z
      /\ report w = header :: "" :: scoreLine score :: rest
      /\ Forall (fun l => isScoreLine l = false) rest)
  /\ status w = Some 0%Z
  /\ (forall message : string,
        summaryOf (out (fst (onError message (start tt))))
        = [join nl (neutralReport ("_Error computing score: " ++ message ++ "_"))]
        /\ nth 2 (neutralReport ("_Error computing score: " ++ message ++ "_")) ""
           = scoreLine 50).
Proof.
  destruct (report_run w) as [-> Hstatus].
  split; [| split; [exact Hstatus | intros message; split; reflexivity]].
  unfold ConfidenceScore.expectedReport.
  destruct (unidentified (env w)).
  - exists 50%Z. eexists. split; [lia |]. split; [reflexivity |].
    repeat constructor.
  - destruct (analyse w _ _ _) as [a | message].
    + exists (Z.max 0 (Z.min 100 (score a))). eexists. split; [lia |].
      split; [reflexivity |].
      repeat (apply Forall_cons; [reflexivity |]).
      apply factorLines_plain.
    + exists 50%Z. eexists. split; [lia |]. split; [reflexivity |].
      repeat constructor.
Qed.

(** C9: every run returns normally with status 0 and writes one report (one
    header, one score line); without a repository or commit reference, and
    when the diff-stats lookup throws, the report is the neutral one: score 50,
    the reason, and no factor table. *)
Theorem neutral_score_and_one_report (w : World) :
  (snd (program w) = Val tt
   /\ status w = Some 0%Z
   /\ occurrences header (report w) = 1
   /\ List.length (filter isScoreLine (report w)) = 1)
  /\ (unidentified (env w) = true ->
      report w
      = neutralReport
          "_No source commit available for analysis (manual dispatch without ref)._")
  /\ (forall reason : string,
        unidentified (env w) = false ->
        getDiffStats w (orElse (SOURCE_REPO (env w)) "")
                       (orElse (SOURCE_REF (env w)) "") = Throw reason ->
        report w = neutralReport ("_Analysis unavailable: " ++ reason ++ "_"))
  /\ (forall reason : string,
        nth 2 (neutralReport reason) "" = scoreLine 50
        /\ List.length (neutralReport reason) = 5).
Proof.
  destruct (report_run w) as [Hreport Hstatus].
  rewrite Hreport. unfold ConfidenceScore.expectedReport.
  split; [| split; [| split]].
  - rewrite program_run. split; [reflexivity |]. split; [exact Hstatus |].
    unfold occurrences.
    destruct (unidentified (env w)); [split; reflexivity |].
    destruct (analyse w _ _ _) as [a | message]; [| split; reflexivity].
    unfold scoredReport. rewrite !filter_app.
    destruct (factorLines_plain (factors a)) as (_ & -> & ->).
    rewrite !app_nil_r.
    split; [reflexivity |].
    cbn [filter]. rewrite scoreLine_is_score_line. reflexivity.
  - intros ->. reflexivity.
  - intros reason -> Hdiff.
    unfold ConfidenceScore.analyse, changeSignals. rewrite Hdiff. reflexivity.
  - intros reason. split; reflexivity.
Qed.

(** C8: 600 changed lines, nothing outside [src/], no dependency file, four
    services flagged and a production deployment within the week give score
    65, with the large-change factor before the services factor. *)
Theorem large_change_and_four_services_score_65
  (w : World) (stats : DiffStats) (daysSince : float) :
  unidentified (env w) = false ->
  getDiffStats w (orElse (SOURCE_REPO (env w)) "") (orElse (SOURCE_REF (env w)) "")
  = Ok stats ->
  totalChanges stats = 600%Z ->
  filter isConfigFile (files stats) = [] ->
  filter isDepFile (files stats) = [] ->
  countServicesAffected (deployFlags (env w)) = Ok 4 ->
  getDaysSinceLastProdDeploy w (orElse (SOURCE_REPO (env w)) "") = Ok daysSince ->
  (7 <? daysSince)%float = false ->
  analyse w (orElse (SOURCE_REPO (env w)) "") (orElse (SOURCE_REF (env w)) "")
          (deployFlags (env w))
  = Ok (mkAcc 65 [ mkFactor "Large change (>500 lines)" "-20";
                   mkFactor "4 services affected (>3)" "-15" ])
  /\ report w
     = [ header; ""; "**Score: 65** / 100"; "";
         "> Source: `" ++ orElse (SOURCE_REPO (env w)) "" ++ "` @ `"
         ++ slice0 7 (orElse (SOURCE_REF (env w)) "") ++ "`";
         ""; "| Signal | Impact |"; "|--------|--------|";
         "| Large change (>500 lines) | -20 |";
         "| 4 services affected (>3) | -15 |" ].
Proof.
  intros Hid Hdiff Htotal Hconfig Hdep Hcount Hdays Hrecent.
  assert (Hanalyse :
            analyse w (orElse (SOURCE_REPO (env w)) "") (orElse (SOURCE_REF (env w)) "")
                    (deployFlags (env w))
            = Ok (mkAcc 65 [ mkFactor "Large change (>500 lines)" "-20";
                             mkFactor "4 services affected (>3)" "-15" ])).
  { unfold ConfidenceScore.analyse, changeSignals, ConfidenceScore.historySignal.
    rewrite Hdiff, Htotal, Hconfig, Hdep, Hcount, Hdays, Hrecent. reflexivity. }
  split; [exact Hanalyse |].
  destruct (report_run w) as [-> _].
  unfold ConfidenceScore.expectedReport. rewrite Hid, Hanalyse. reflexivity.
Qed.

Lemma changeSignals_impacts (w : World) (repo sha : string) (flags : Json) (a : Acc) :
  changeSignals w repo sha flags = Ok a ->
  Forall (fun f => impact f <> "n/a") (factors a).
Proof.
  unfold changeSignals.
  destruct (getDiffStats w repo sha) as [stats |]; [| discriminate].
  destruct (countServicesAffected flags) as [serviceCount |]; [| discriminate].
  destruct (totalChanges stats <? 50)%Z, (totalChanges stats >? 500)%Z,
    (0 <? List.length (filter isConfigFile (files stats)))%nat,
    (0 <? List.length (filter isDepFile (files stats)))%nat,
    (3 <? serviceCount)%nat, (2 <=? serviceCount)%nat;
    intros [= <-]; cbn; repeat constructor; discriminate.
Qed.

(** C10: when the repository lists no production deployment, the history
    lookup returns [Infinity] instead of throwing, so the analysis takes 5
    off the score and appends the stale-deploy factor, labelled with the
    rendering of [Math.round(Infinity)]; the "unavailable" factor is not
    recorded. *)
Theorem no_production_deployment_counts_as_stale
  (w : World) (code : Z) (a : Acc) :
  unidentified (env w) = false ->
  deployments w = ApiResponse true code (Ok []) ->
  changeSignals w (orElse (SOURCE_REPO (env w)) "") (orElse (SOURCE_REF (env w)) "")
                (deployFlags (env w)) = Ok a ->
  getDaysSinceLastProdDeploy w (orElse (SOURCE_REPO (env w)) "") = Ok infinity
  /\ is_infinity infinity = true
  /\ analyse w (orElse (SOURCE_REPO (env w)) "") (orElse (SOURCE_REF (env w)) "")
             (deployFlags (env w))
     = Ok (mkAcc (score a - 5) (factors a ++ [staleFactor infinity]))
  /\ staleFactor infinity
     = mkFactor (">7 days since last prod deploy ("
                 ++ Number_toString (Math_round infinity) ++ "d)") "-5"
  /\ ~ In unavailableFactor (factors a ++ [staleFactor infinity])
  /\ report w
     = scoredReport (orElse (SOURCE_REPO (env w)) "") (orElse (SOURCE_REF (env w)) "")
         (mkAcc (score a - 5) (factors a ++ [staleFactor infinity]))
  /\ In (factorRow (staleFactor infinity)) (report w).
Proof.
  intros Hid Hnone Hsignals.
  assert (Hdays : getDaysSinceLastProdDeploy w (orElse (SOURCE_REPO (env w)) "")
                  = Ok infinity).
  { unfold getDaysSinceLastProdDeploy. rewrite Hnone. reflexivity. }
  assert (Hanalyse :
            analyse w (orElse (SOURCE_REPO (env w)) "") (orElse (SOURCE_REF (env w)) "")
                    (deployFlags (env w))
            = Ok (mkAcc (score a - 5) (factors a ++ [staleFactor infinity]))).
  { unfold ConfidenceScore.analyse, ConfidenceScore.historySignal.
    rewrite Hsignals, Hdays. reflexivity. }
  assert (Hreport :
            report w
            = scoredReport (orElse (SOURCE_REPO (env w)) "")
                (orElse (SOURCE_REF (env w)) "")
                (mkAcc (score a - 5) (factors a ++ [staleFactor infinity]))).
  { destruct (report_run w) as [-> _].
    unfold ConfidenceScore.expectedReport. rewrite Hid, Hanalyse. reflexivity. }
  repeat split; try assumption.
  - intros Hin. apply in_app_or in Hin. destruct Hin as [Hin | [Heq | []]].
    + pose proof (changeSignals_impacts _ _ _ _ _ Hsignals) as Himpacts.
      rewrite Forall_forall in Himpacts. apply (Himpacts _ Hin). reflexivity.
    + discriminate Heq.
  - rewrite Hreport. unfold scoredReport, factorLines. cbn [factors].
    rewrite length_app. cbn [List.length].
    replace (0 <? List.length (factors a) + 1)%nat with true
      by (symmetry; apply Nat.ltb_lt; lia).
    apply in_or_app. right. right. right.
    rewrite map_app. apply in_or_app. right. left. reflexivity.
Qed.

(** *** Further properties of the risk scorer *)

(** X8: the table accounts for the score.  When the analysis succeeds, the
    score it leaves is 100 plus the impacts of the factors it lists ("n/a"
    counting for nothing); it lies between 35 and 110, so the clamp never
    raises it and the reported score is that sum capped at 100; and at most
    five factors are listed. *)
Theorem score_is_accounted_by_factors (w : World) (a : Acc) :
  unidentified (env w) = false ->
  analyse w (orElse (SOURCE_REPO (env w)) "") (orElse (SOURCE_REF (env w)) "")
          (deployFlags (env w)) = Ok a ->
  score a = accounted (factors a)
  /\ (35 <= score a <= 110)%Z
  /\ (List.length (factors a) <= 5)%nat
  /\ nth 2 (report w) "" = scoreLine (Z.min 100 (accounted (factors a))).
Proof.
  intros Hid Hanalyse.
  assert (Hscore : score a = accounted (factors a)
                   /\ (35 <= score a <= 110)%Z
                   /\ (List.length (factors a) <= 5)%nat).
  { revert Hanalyse.
    unfold ConfidenceScore.analyse, changeSignals, ConfidenceScore.historySignal.
    destruct (getDiffStats w _ _) as [stats |]; [| discriminate].
    destruct (countServicesAffected _) as [serviceCount |]; [| discriminate].
    destruct (Z.ltb_spec (totalChanges stats) 50), (Z.gtb_spec (totalChanges stats) 500);
      try lia;
      destruct (0 <? List.length (filter isConfigFile (files stats)))%nat,
        (0 <? List.length (filter isDepFile (files stats)))%nat,
        (3 <? serviceCount)%nat, (2 <=? serviceCount)%nat;
      (destruct (getDaysSinceLastProdDeploy w _) as [daysSince |];
       [destruct (7 <? daysSince)%float |]);
      intros [= <-]; cbn; repeat split; lia. }
  destruct Hscore as (Hacc & Hrange & Hcount).
  repeat split; try assumption; try lia.
  destruct (report_run w) as [-> _].
  unfold ConfidenceScore.expectedReport. rewrite Hid, Hanalyse.
  cbn [scoredReport app nth]. rewrite <- Hacc.
  f_equal. lia.
Qed.

(** X9: missing history costs nothing.  However the deployments lookup
    fails (rejected call, refusal, unreadable body), the analysis keeps the
    score of the other signals, appends the "unavailable" factor, and the run
    writes the scored report with that row, not the neutral one. *)
Theorem failed_history_lookup_leaves_score (w : World) (a : Acc) (reason : string) :
  unidentified (env w) = false ->
  changeSignals w (orElse (SOURCE_REPO (env w)) "") (orElse (SOURCE_REF (env w)) "")
                (deployFlags (env w)) = Ok a ->
  ghApi ("/repos/mnemom/" ++ orElse (SOURCE_REPO (env w)) ""
         ++ "/deployments?environment=production&per_page=1") (deployments w)
  = Throw reason ->
  analyse w (orElse (SOURCE_REPO (env w)) "") (orElse (SOURCE_REF (env w)) "")
          (deployFlags (env w))
  = Ok (mkAcc (score a) (factors a ++ [unavailableFactor]))
  /\ report w
     = scoredReport (orElse (SOURCE_REPO (env w)) "") (orElse (SOURCE_REF (env w)) "")
         (mkAcc (score a) (factors a ++ [unavailableFactor]))
  /\ List.last (report w) "" = "| Last prod deploy time unavailable | n/a |".
Proof.
  intros Hid Hsignals Hlookup.
  assert (Hanalyse :
            analyse w (orElse (SOURCE_REPO (env w)) "") (orElse (SOURCE_REF (env w)) "")
                    (deployFlags (env w))
            = Ok (mkAcc (score a) (factors a ++ [unavailableFactor]))).
  { unfold ConfidenceScore.analyse, ConfidenceScore.historySignal,
      getDaysSinceLastProdDeploy.
    rewrite Hsignals, Hlookup. reflexivity. }
  assert (Hreport :
            report w
            = scoredReport (orElse (SOURCE_REPO (env w)) "")
                (orElse (SOURCE_REF (env w)) "")
                (mkAcc (score a) (factors a ++ [unavailableFactor]))).
  { destruct (report_run w) as [-> _].
    unfold ConfidenceScore.expectedReport. rewrite Hid, Hanalyse. reflexivity. }
  repeat split; try assumption.
  rewrite Hreport. unfold scoredReport, factorLines. cbn [factors].
  rewrite length_app. cbn [List.length].
  replace (0 <? List.length (factors a) + 1)%nat with true
    by (symmetry; apply Nat.ltb_lt; lia).
  rewrite map_app. cbn [map].
  rewrite !app_comm_cons, app_assoc. apply last_last.
Qed.

(** X10: [DEPLOY_FLAGS=null] blinds the scorer.  When the flags parse to
    [null], counting the services throws inside the analysis, so although the
    diff statistics were obtained the run writes the neutral report, score 50,
    with that error as its reason. *)
Theorem null_flags_give_neutral_report (w : World) (stats : DiffStats) :
  unidentified (env w) = false ->
  JSON_parse (orElse (DEPLOY_FLAGS (env w)) "{}") = Ok JNull ->
  getDiffStats w (orElse (SOURCE_REPO (env w)) "") (orElse (SOURCE_REF (env w)) "")
  = Ok stats ->
  report w
  = neutralReport
      "_Analysis unavailable: Cannot read properties of null (reading 'smoltbot')_"
  /\ status w = Some 0%Z.
Proof.
  intros Hid Hflags Hdiff.
  destruct (report_run w) as [-> Hstatus]. split; [| exact Hstatus].
  unfold ConfidenceScore.expectedReport, ConfidenceScore.analyse, changeSignals,
    ConfidenceScore.deployFlags.
  rewrite Hid, Hflags, Hdiff. reflexivity.
Qed.

Lemma lookup_In (k : string) (props : list (string * Json)) (v : Json) :
  lookup k props = Some v -> In (k, v) props.
Proof.
  induction props as [| [k' v'] props IH]; cbn [lookup]; [discriminate |].
  destruct (String.eqb_spec k' k) as [-> | Hne].
  - intros [= ->]. left. reflexivity.
  - intros H. right. apply IH, H.
Qed.

(** X11: what counts as an affected service.  The count is at most 7; a
    flag whose key is not one of the seven services changes nothing; flags
    none of whose values is the boolean [true] count for 0, as does any value
    that is neither an object nor [null]; and the count throws exactly on
    [null]. *)
Theorem services_counted_are_true_service_flags :
  (forall flags n, countServicesAffected flags = Ok n -> n <= 7)
  /\ (forall props k v,
        ~ In k serviceKeys ->
        countServicesAffected (JObject ((k, v) :: props))
        = countServicesAffected (JObject props))
  /\ (forall props,
        (forall k v, In (k, v) props -> v <> JBool true) ->
        countServicesAffected (JObject props) = Ok 0)
  /\ (forall flags,
        (exists reason, countServicesAffected flags = Throw reason)
        <-> flags = JNull)
  /\ (forall b x s items,
        countServicesAffected (JBool b) = Ok 0
        /\ countServicesAffected (JNumber x) = Ok 0
        /\ countServicesAffected (JString s) = Ok 0
        /\ countServicesAffected (JArray items) = Ok 0).
Proof.
  split; [| split; [| split; [| split]]].
  - intros flags n Hcount.
    assert (Hle : List.length (filter (flagged flags) serviceKeys) <= 7)
      by apply (filter_length_le (flagged flags) serviceKeys).
    destruct flags; cbn in Hcount; try discriminate Hcount;
      injection Hcount as <-; try lia; exact Hle.
  - intros props k v Hk. unfold countServicesAffected. do 2 f_equal.
    apply filter_ext_in. intros k' Hk'. unfold flagged. cbn [lookup].
    destruct (String.eqb_spec k k') as [-> | _]; [contradiction | reflexivity].
  - intros props Hnone. unfold countServicesAffected. f_equal.
    rewrite (filter_ext_in (flagged (JObject props)) (fun _ => false)),
      filter_false; [reflexivity |].
    intros k _. unfold flagged.
    destruct (lookup k props) as [[| [|] | | | |] |] eqn:Hlook; try reflexivity.
    apply lookup_In in Hlook. contradiction (Hnone _ _ Hlook). reflexivity.
  - intros flags. split.
    + intros [reason Hthrow]. destruct flags; cbn in Hthrow;
        try discriminate Hthrow; reflexivity.
    + intros ->. eexists. reflexivity.
  - intros b x s items. repeat split.
Qed.

(** X12: a commit without a parent is a small change.  When the commit
    lookup succeeds and names no parent, the diff statistics are 0 lines and no
    files whatever the compare endpoint would answer; so the analysis opens
    with the small-change bonus, can only lose points to the services signal,
    and leaves a score of at least 95 before the history signal. *)
Theorem parentless_commit_scores_as_small_change
  (w : World) (code : Z) (parent : envvar) (repo sha : string) :
  commit w = ApiResponse true code (Ok parent) ->
  falsy parent = true ->
  getDiffStats w repo sha = Ok (mkDiffStats 0 [])
  /\ (forall flags a,
        changeSignals w repo sha flags = Ok a ->
        hd_error (factors a) = Some (mkFactor "Small change (<50 lines)" "+10")
        /\ (95 <= score a)%Z
        /\ (List.length (factors a) <= 2)%nat).
Proof.
  intros Hcommit Hparent.
  assert (Hdiff : getDiffStats w repo sha = Ok (mkDiffStats 0 [])).
  { unfold getDiffStats, ghApi. rewrite Hcommit. cbn [negb]. rewrite Hparent.
    reflexivity. }
  split; [exact Hdiff |].
  intros flags a. unfold changeSignals. rewrite Hdiff.
  destruct (countServicesAffected flags) as [serviceCount |]; [| discriminate].
  destruct (3 <? serviceCount)%nat, (2 <=? serviceCount)%nat;
    cbn; intros [= <-]; cbn; repeat split; lia.
Qed.

End RiskScorer.

Lemma large_change_witness :
  ConfidenceScore.report parseFlags noNumber roundId largeChange
  = [ ConfidenceScore.header; ""; "**Score: 65** / 100"; "";
      "> Source: `smoltbot` @ `0123456`"; "";
      "| Signal | Impact |"; "|--------|--------|";
      "| Large change (>500 lines) | -20 |";
      "| 4 services affected (>3) | -15 |" ].
Proof.
  exact (proj2 (large_change_and_four_services_score_65
                  parseFlags noNumber roundId largeChange
                  (ConfidenceScore.mkDiffStats 600
                     ["src/gateway/index.ts"; "src/gateway/index.test.ts"])
                  1%float
                  eq_refl eq_refl eq_refl eq_refl eq_refl eq_refl eq_refl eq_refl)).
Defined.

Lemma neutral_score_witness :
  ConfidenceScore.report parseFlags noNumber roundId manualDispatch
  = [ ConfidenceScore.header; ""; "**Score: 50** / 100"; "";
      "_No source commit available for analysis (manual dispatch without ref)._" ].
Proof.
  apply (proj1 (proj2 (neutral_score_and_one_report
                         parseFlags noNumber roundId manualDispatch))).
  reflexivity.
Defined.

Lemma no_production_deployment_witness :
  ConfidenceScore.report parseFlags showInfinity roundId neverDeployed
  = [ ConfidenceScore.header; ""; "**Score: 60** / 100"; "";
      "> Source: `smoltbot` @ `0123456`"; "";
      "| Signal | Impact |"; "|--------|--------|";
      "| Large change (>500 lines) | -20 |";
      "| 4 services affected (>3) | -15 |";
      "| >7 days since last prod deploy (Infinityd) | -5 |" ].
Proof.
  destruct (no_production_deployment_counts_as_stale
              parseFlags showInfinity roundId neverDeployed 200
              (ConfidenceScore.mkAcc 65
                 [ ConfidenceScore.mkFactor "Large change (>500 lines)" "-20";
                   ConfidenceScore.mkFactor "4 services affected (>3)" "-15" ])
              eq_refl eq_refl eq_refl)
    as (_ & _ & _ & _ & _ & Hreport & _).
  exact Hreport.
Defined.

(** ** The monitor setup *)

Section MonitorSetup.

Import SetupBetterstack.

Ltac run_setup :=
  unfold await;
  unfold console_log, console_error, bind, emit, modify, get, ret, exit, throw;
  cbn [vars out fst snd data next negb].

(** The listing only adds requests to the state, and what it returns does
    not depend on the state it starts from. *)
Lemma pages_frame (w : World) (fuel : nat) :
  forall (page : nat) (monitors : list Listed) (s : Store Sent),
    pages w fuel page monitors s
    = (mkStore (vars s ++ vars (fst (pages w fuel page monitors (start []))))%list
               (out s),
       snd (pages w fuel page monitors (start []))).
Proof.
  induction fuel as [| fuel IH]; intros page monitors [sent tr].
  - cbn. rewrite app_nil_r. reflexivity.
  - cbn [pages]. unfold apiRequest, start.
    destruct (falsy (BETTERSTACK_API_TOKEN w));
      [run_setup; rewrite app_nil_r; reflexivity |].
    destruct (listing w page) as [e | code [body | e] | [[[[| item items] |] more] | e]];
      run_setup; rewrite ?app_nil_r; try reflexivity.
    destruct more; cbn [negb]; run_setup; [| reflexivity].
    rewrite (IH (S page) _ (mkStore (sent ++ [GET (listPath page)])%list tr)).
    rewrite (IH (S page) _ (mkStore ([] ++ [GET (listPath page)])%list [])).
    cbn [vars out fst snd app]. rewrite <- app_assoc. reflexivity.
Qed.

(** The listing sends GETs only. *)
Lemma pages_only_get (w : World) (fuel : nat) :
  forall (page : nat) (monitors : list Listed),
    created (vars (fst (pages w fuel page monitors (start [])))) = [].
Proof.
  induction fuel as [| fuel IH]; intros page monitors.
  - reflexivity.
  - cbn [pages]. unfold apiRequest, start.
    destruct (falsy (BETTERSTACK_API_TOKEN w)); [reflexivity |].
    destruct (listing w page) as [e | code [body | e] | [[[[| item items] |] more] | e]];
      run_setup; try reflexivity.
    destruct more; cbn [negb]; run_setup; [| reflexivity].
    rewrite pages_frame. cbn [vars fst app].
    unfold created in *. cbn [flat_map app]. apply IH.
Qed.

(** With a token, the loop over [MONITORS] posts the monitors the listing
    does not show, in order, whatever the answers, and returns. *)
Lemma forEachMonitor_run (w : World) (urls : list string) (monitors : list Monitor) :
  falsy (BETTERSTACK_API_TOKEN w) = false ->
  forall s : Store Sent,
  exists logs,
    forEachMonitor w urls monitors s
    = (mkStore (vars s ++ map (POST "/monitors")
                            (filter (fun m => negb (has urls (url m))) monitors))%list
               (out s ++ logs), Val tt)
    /\ List.length logs = List.length monitors.
Proof.
  intros Htoken. induction monitors as [| monitor rest IH]; intros [sent tr].
  - exists []. cbn. rewrite !app_nil_r. split; reflexivity.
  - cbn [forEachMonitor filter]. unfold createMonitor, apiRequest, try_catch.
    rewrite Htoken.
    destruct (has urls (url monitor)); cbn [negb].
    + run_setup. 
      destruct (IH (mkStore sent (tr ++ [Log ("  SKIP  " ++ name monitor
                  ++ " — already exists (" ++ url monitor ++ ")")])))
        as (logs & Hrun & Hlen).
      rewrite Hrun. eexists (_ :: logs). cbn [vars out List.length].
      rewrite <- app_assoc. split; [reflexivity | rewrite Hlen; reflexivity].
    + destruct (creation w monitor) as [e | code [body | e] | [[] | e]];
        run_setup;
        match goal with
        | |- context [forEachMonitor w urls rest ?s1] =>
            destruct (IH s1) as (logs & Hrun & Hlen)
        end;
        rewrite Hrun; eexists (_ :: logs); cbn [vars out List.length map];
        rewrite <- !app_assoc; (split; [reflexivity | rewrite Hlen; reflexivity]).
Qed.

(** What the listing returned does not depend on the lines logged before. *)
Lemma main_after_listing (w : World) (fuel : nat) :
  program w fuel
  = try_catch
      (existing <- (fun s => (s, snd (getExistingMonitors w fuel (start [])))) ;;
       console_log ("Found " ++ string_of_nat (List.length existing)
                    ++ " existing monitor(s)" ++ nl) ;;
       forEachMonitor w (existingUrls existing) MONITORS ;;
       console_log (nl ++ "Done."))
      onError
      (mkStore (vars (fst (getExistingMonitors w fuel (start []))))
               [Log "Fetching existing monitors..."]).
Proof.
  unfold program, main, getExistingMonitors, try_catch.
  unfold bind at 1, console_log at 1, emit at 1. unfold bind at 1.
  rewrite pages_frame. unfold bind at 3. cbn [start vars out app].
  reflexivity.
Qed.

Lemma listing_needs_token (w : World) (fuel : nat) (existing : list Listed) :
  snd (getExistingMonitors w fuel (start [])) = Val existing ->
  falsy (BETTERSTACK_API_TOKEN w) = false.
Proof.
  unfold getExistingMonitors. destruct fuel as [| fuel]; [discriminate |].
  cbn [pages]. unfold apiRequest.
  destruct (falsy (BETTERSTACK_API_TOKEN w)); [discriminate | reflexivity].
Qed.

Lemma created_posts (path : string) (ms : list Monitor) :
  created (map (POST path) ms) = ms.
Proof.
  unfold created. induction ms as [| m ms IH]; cbn; [| rewrite IH]; reflexivity.
Qed.

(** When the listing returns, the run goes on to the loop over [MONITORS]
    and returns: its requests are the GETs of the listing followed by one POST
    per missing monitor. *)
Lemma setup_run (w : World) (fuel : nat) (existing : list Listed) :
  snd (getExistingMonitors w fuel (start [])) = Val existing ->
  exists logs,
    program w fuel
    = (mkStore (vars (fst (getExistingMonitors w fuel (start [])))
                ++ map (POST "/monitors") (missing existing))%list
               logs, Val tt).
Proof.
  intros Hlisted.
  pose proof (listing_needs_token w fuel existing Hlisted) as Htoken.
  rewrite main_after_listing, Hlisted. unfold try_catch.
  unfold bind at 1. unfold bind at 1, console_log at 1, emit at 1.
  unfold bind at 1. cbn [vars out].
  match goal with
  | |- context [forEachMonitor w ?urls MONITORS ?s] =>
      destruct (forEachMonitor_run w urls MONITORS Htoken s) as (logs & -> & _)
  end.
  eexists. unfold console_log, emit. cbn [vars out]. reflexivity.
Qed.

Lemma setup_created (w : World) (fuel : nat) (existing : list Listed) :
  snd (getExistingMonitors w fuel (start [])) = Val existing ->
  created (sent w fuel) = missing existing /\ status w fuel = Some 0%Z.
Proof.
  intros Hlisted. destruct (setup_run w fuel existing Hlisted) as [logs Hrun].
  unfold sent, status. rewrite Hrun. cbn [fst snd vars exitCode].
  split; [| reflexivity].
  pose proof (created_posts "/monitors" (missing existing)) as Hposts.
  pose proof (pages_only_get w fuel 1 []) as Hgets.
  unfold getExistingMonitors, created in *.
  rewrite flat_map_app, Hgets, app_nil_l. exact Hposts.
Qed.

(** X13: the run creates exactly what is missing.  When the listing
    returns, the run sends, after its GETs, one POST for each monitor of
    [MONITORS] whose URL the listing does not show, in the order of
    [MONITORS] and each once, whatever the answers to the POSTs; it posts
    nothing else and ends with status 0. *)
Theorem setup_creates_exactly_the_missing
  (w : World) (fuel : nat) (existing : list Listed) :
  snd (getExistingMonitors w fuel (start [])) = Val existing ->
  (exists gets,
      sent w fuel = (gets ++ map (POST "/monitors") (missing existing))%list
      /\ created gets = [])
  /\ created (sent w fuel) = missing existing
  /\ NoDup (created (sent w fuel))
  /\ incl (created (sent w fuel)) MONITORS
  /\ status w fuel = Some 0%Z.
Proof.
  intros Hlisted.
  destruct (setup_run w fuel existing Hlisted) as [logs Hrun].
  destruct (setup_created w fuel existing Hlisted) as [Hcreated Hstatus].
  split; [| split; [| split; [| split]]].
  - eexists. unfold sent. rewrite Hrun. cbn [fst vars].
    split; [reflexivity | apply pages_only_get].
  - exact Hcreated.
  - rewrite Hcreated. apply NoDup_filter.
    repeat (constructor; [cbn; intuition discriminate |]). constructor.
  - rewrite Hcreated. intros m Hm. apply filter_In in Hm. apply Hm.
  - exact Hstatus.
Qed.

(** X14: safe to run again.  If a later run's listing still shows every
    URL an earlier listing showed, and shows the URL of every monitor the
    earlier run posted, the later run posts nothing and ends with status 0. *)
Theorem second_setup_run_creates_nothing
  (w1 w2 : World) (fuel1 fuel2 : nat) (existing1 existing2 : list Listed) :
  snd (getExistingMonitors w1 fuel1 (start [])) = Val existing1 ->
  snd (getExistingMonitors w2 fuel2 (start [])) = Val existing2 ->
  (forall u, has (existingUrls existing1) u = true ->
             has (existingUrls existing2) u = true) ->
  (forall m, In m (created (sent w1 fuel1)) ->
             has (existingUrls existing2) (url m) = true) ->
  created (sent w2 fuel2) = [] /\ status w2 fuel2 = Some 0%Z.
Proof.
  intros Hfirst Hsecond Hkept Hnew.
  destruct (setup_created w1 fuel1 existing1 Hfirst) as [Hcreated1 _].
  destruct (setup_created w2 fuel2 existing2 Hsecond) as [Hcreated2 Hstatus].
  split; [| exact Hstatus].
  rewrite Hcreated2. unfold missing.
  rewrite (filter_ext_in _ (fun _ => false)), filter_false; [reflexivity |].
  intros m Hm. apply negb_false_iff.
  destruct (has (existingUrls existing1) (url m)) eqn:Hold.
  - apply Hkept, Hold.
  - apply Hnew. rewrite Hcreated1. apply filter_In. split; [exact Hm |].
    rewrite Hold. reflexivity.
Qed.

(** X15: a failed listing stops everything.  When the listing throws (no
    token, a rejected call, a refusal, an unreadable body, on any page), the
    run posts nothing, reports the error on the console and ends with
    status 1; without a token it has not sent a single request. *)
Theorem failed_listing_creates_nothing (w : World) (fuel : nat) (reason : string) :
  snd (getExistingMonitors w fuel (start [])) = Thrown reason ->
  created (sent w fuel) = []
  /\ console w fuel
     = [ Log "Fetching existing monitors...";
         LogError ("setup-betterstack.js error: " ++ reason) ]
  /\ status w fuel = Some 1%Z
  /\ (falsy (BETTERSTACK_API_TOKEN w) = true ->
      sent w fuel = [] /\ reason = "BETTERSTACK_API_TOKEN is required").
Proof.
  intros Hthrown.
  assert (Hrun : program w fuel
                 = (mkStore (vars (fst (getExistingMonitors w fuel (start []))))
                            [ Log "Fetching existing monitors...";
                              LogError ("setup-betterstack.js error: " ++ reason) ],
                    Exited 1%Z)).
  { rewrite main_after_listing, Hthrown. reflexivity. }
  unfold sent, console, status. rewrite Hrun. cbn [fst snd vars out exitCode].
  repeat split.
  - apply pages_only_get.
  - revert Hthrown H. unfold getExistingMonitors.
    destruct fuel as [| fuel]; [discriminate |].
    cbn [pages]. unfold apiRequest. intros Hthrown ->. reflexivity.
  - revert Hthrown H. unfold getExistingMonitors.
    destruct fuel as [| fuel]; [discriminate |].
    cbn [pages]. unfold apiRequest. intros Hthrown Htoken.
    rewrite Htoken in Hthrown. cbn in Hthrown. injection Hthrown as <-.
    reflexivity.
Qed.

(** The listing walks the pages in order: through [k] pages that continue,
    to a page that stops. *)
Lemma pages_walk (w : World) (k : nat) :
  falsy (BETTERSTACK_API_TOKEN w) = false ->
  forall (fuel page : nat) (monitors : list Listed),
    k < fuel ->
    (forall j, j < k -> continues (listing w (page + j)) = true) ->
    stops (listing w (page + k)) = true ->
    pages w fuel page monitors (start [])
    = (mkStore (map (fun p => GET (listPath p)) (seq page (S k))) [],
       Val (monitors
            ++ flat_map (fun p => itemsOf (listing w p)) (seq page (S k)))%list).
Proof.
  intros Htoken. induction k as [| k IH]; intros fuel page monitors Hfuel Hgo Hstop;
    (destruct fuel as [| fuel]; [lia |]).
  - rewrite Nat.add_0_r in Hstop.
    cbn [pages seq map flat_map]. unfold apiRequest, start. rewrite Htoken.
    unfold stops, continues, itemsOf in *.
    destruct (listing w page) as [e | code text | [[[[| item items] |] more] | e]];
      try discriminate Hstop; run_setup; rewrite ?app_nil_r; try reflexivity.
    cbn [data next] in Hstop. destruct more; [discriminate Hstop | reflexivity].
  - pose proof (Hgo 0 ltac:(lia)) as Hfirst. rewrite Nat.add_0_r in Hfirst.
    cbn [pages]. unfold apiRequest, start. rewrite Htoken.
    cbn [seq map flat_map].
    unfold continues in Hfirst. unfold itemsOf at 1.
    destruct (listing w page) as [e | code text | [[[[| item items] |] more] | e]];
      try discriminate Hfirst.
    cbn [data next] in Hfirst. subst more.
    run_setup. rewrite pages_frame.
    rewrite (IH fuel (S page) (monitors ++ item :: items)%list).
    + cbn [fst snd vars out app]. rewrite <- app_assoc. reflexivity.
    + lia.
    + intros j Hj. replace (S page + j) with (page + S j) by lia. apply Hgo. lia.
    + replace (S page + k) with (page + S k) by lia. exact Hstop.
Qed.

Lemma fetched_requests (paths : list string) (ms : list Monitor) (path : string) :
  fetched (map GET paths ++ map (POST path) ms) = paths.
Proof.
  unfold fetched. rewrite flat_map_app.
  replace (flat_map _ (map (POST path) ms)) with (@nil string).
  - rewrite app_nil_r. induction paths as [| p l IH]; cbn [map flat_map app];
      [| rewrite IH]; reflexivity.
  - induction ms as [| m l IH]; cbn [map flat_map app]; [| rewrite <- IH];
      reflexivity.
Qed.

(** X16: the listing gathers every page.  With a token, when pages
    1 to [k] each hold items and name a next page and page [k+1] is readable
    and is empty or names none, [getExistingMonitors] asks for pages
    1 to [k+1], in order and once each, and returns their items in that
    order. *)
Theorem listing_gathers_all_pages (w : World) (k fuel : nat) :
  falsy (BETTERSTACK_API_TOKEN w) = false ->
  k < fuel ->
  (forall j, j < k -> continues (listing w (1 + j)) = true) ->
  stops (listing w (1 + k)) = true ->
  snd (getExistingMonitors w fuel (start []))
  = Val (flat_map (fun p => itemsOf (listing w p)) (seq 1 (S k)))
  /\ vars (fst (getExistingMonitors w fuel (start [])))
     = map (fun p => GET (listPath p)) (seq 1 (S k))
  /\ fetched (sent w fuel) = map listPath (seq 1 (S k)).
Proof.
  intros Htoken Hfuel Hgo Hstop.
  pose proof (pages_walk w k Htoken fuel 1 [] Hfuel Hgo Hstop) as Hwalk.
  unfold getExistingMonitors. rewrite Hwalk. cbn [fst snd vars app].
  split; [reflexivity |]. split; [reflexivity |].
  assert (Hlisted : snd (getExistingMonitors w fuel (start []))
                    = Val (flat_map (fun p => itemsOf (listing w p)) (seq 1 (S k))))
    by (unfold getExistingMonitors; rewrite Hwalk; reflexivity).
  destruct (setup_run w fuel _ Hlisted) as [logs Hgets].
  unfold sent. rewrite Hgets. unfold getExistingMonitors. rewrite Hwalk.
  cbn [fst vars]. rewrite <- (map_map listPath GET).
  apply fetched_requests.
Qed.

End MonitorSetup.

(** ** Across the scripts *)

(** X17: the gate and the supervisor agree on a breach.  A sample that
    makes the supervisor roll back ([requests > 0] and
    [errorRate > threshold]) fails the canary gate under the same
    threshold. *)
Theorem breach_fails_the_canary_gate (threshold : float) (result : Sample) :
  PostDeployMonitor.breach threshold (requests result) (errorRate result) = true ->
  CheckErrorRate.passed result threshold = false.
Proof.
  unfold PostDeployMonitor.breach, CheckErrorRate.passed.
  intros Hbreach. apply andb_true_iff in Hbreach. destruct Hbreach as [Htraffic Hrate].
  destruct (ltb_excludes zero (requests result) Htraffic) as [_ ->].
  destruct (ltb_excludes threshold (errorRate result) Hrate) as [-> _].
  reflexivity.
Qed.

(** ** Runs of the further properties *)

Lemma breach_fails_the_canary_gate_witness :
  CheckErrorRate.passed (mkSample 100 50 0.5) five_percent = false.
Proof. exact (breach_fails_the_canary_gate five_percent (mkSample 100 50 0.5) eq_refl). Defined.

(** The first query fails, the second window breaches: status 1. *)
Lemma breach_after_quiet_polls_witness :
  PostDeployMonitor.status parseNumber parseNumber noNumber noFixed maskedBreach 3
  = Some 1%Z
  /\ PostDeployMonitor.records parseNumber parseNumber noNumber noFixed maskedBreach 3
     = [ PostDeployMonitor.CheckError 1 "fetch failed";
         PostDeployMonitor.CheckOk 2 100 50 0.5 ].
Proof.
  destruct (breach_after_quiet_polls_rolls_back
              parseNumber parseNumber noNumber noFixed maskedBreach 1 3
              (mkSample 100 50 0.5))
    as (Hrecords & _ & _ & tail & _ & Hreturns).
  - reflexivity.
  - lia.
  - intros [| k] Hk; [split; reflexivity | lia].
  - reflexivity.
  - reflexivity.
  - reflexivity.
  - destruct (Hreturns eq_refl) as (_ & Hstatus & _).
    split; [exact Hstatus | exact Hrecords].
Defined.

Lemma no_traffic_witness :
  PostDeployMonitor.status parseNumber parseNumber noNumber noFixed idleWorld 3
  = Some 0%Z.
Proof.
  apply (no_traffic_never_rolls_back
           parseNumber parseNumber noNumber noFixed idleWorld 2 3).
  - reflexivity.
  - intros i result [= <-]. reflexivity.
  - reflexivity.
  - reflexivity.
  - lia.
Defined.

Lemma canary_passes_without_rows_witness :
  outputsOf (CheckErrorRate.trace parseNaN parseNaN noNumber noFixed canaryNoRows)
  = [("canary-passed", "true")].
Proof.
  apply (canary_passes_without_rows parseNaN parseNaN noNumber noFixed
           canaryNoRows 200 (mkBody [] None));
    [reflexivity | reflexivity | reflexivity | left; reflexivity].
Defined.

Lemma canary_nan_threshold_witness :
  outputsOf (CheckErrorRate.trace parseNaN parseNaN noNumber noFixed
               (canaryWorld 100 0))
  = [("canary-passed", "false")].
Proof.
  exact (canary_fails_traffic_under_nan_threshold
           parseNaN parseNaN noNumber noFixed (canaryWorld 100 0)
           (mkSample 100 0 (0 / 100)%float) eq_refl eq_refl eq_refl eq_refl).
Defined.

Lemma nan_threshold_witness :
  dispatchesOf
    (PostDeployMonitor.trace parseNaN parseNumber noNumber noFixed dispatchOutage 3)
  = [].
Proof.
  exact (proj1 (nan_threshold_never_rolls_back
                  parseNaN parseNumber noNumber noFixed dispatchOutage 3 eq_refl)).
Defined.

Lemma score_is_accounted_witness :
  nth 2 (ConfidenceScore.report parseFlags noNumber roundId largeChange) ""
  = "**Score: 65** / 100".
Proof.
  exact (proj2 (proj2 (proj2
           (score_is_accounted_by_factors parseFlags noNumber roundId largeChange
              (ConfidenceScore.mkAcc 65
                 [ ConfidenceScore.mkFactor "Large change (>500 lines)" "-20";
                   ConfidenceScore.mkFactor "4 services affected (>3)" "-15" ])
              eq_refl eq_refl)))).
Defined.

Lemma failed_history_lookup_witness :
  List.last (ConfidenceScore.report parseFlags noNumber roundId historyRefused) ""
  = "| Last prod deploy time unavailable | n/a |".
Proof.
  exact (proj2 (proj2
           (failed_history_lookup_leaves_score parseFlags noNumber roundId
              historyRefused
              (ConfidenceScore.mkAcc 65
                 [ ConfidenceScore.mkFactor "Large change (>500 lines)" "-20";
                   ConfidenceScore.mkFactor "4 services affected (>3)" "-15" ])
              "GitHub API 403: /repos/mnemom/smoltbot/deployments?environment=production&per_page=1"
              eq_refl eq_refl eq_refl))).
Defined.

Lemma null_flags_witness :
  ConfidenceScore.report parseNull noNumber roundId largeChange
  = ConfidenceScore.neutralReport
      "_Analysis unavailable: Cannot read properties of null (reading 'smoltbot')_".
Proof.
  exact (proj1 (null_flags_give_neutral_report parseNull noNumber roundId largeChange
                  (ConfidenceScore.mkDiffStats 600
                     ["src/gateway/index.ts"; "src/gateway/index.test.ts"])
                  eq_refl eq_refl eq_refl)).
Defined.

Lemma parentless_commit_witness :
  ConfidenceScore.getDiffStats firstCommit "smoltbot" "0123456789abcdef"
  = Ok (ConfidenceScore.mkDiffStats 0 []).
Proof.
  exact (proj1 (parentless_commit_scores_as_small_change firstCommit 200 None
                  "smoltbot" "0123456789abcdef" eq_refl eq_refl)).
Defined.

Lemma setup_creates_witness :
  map SetupBetterstack.name
      (SetupBetterstack.created (SetupBetterstack.sent firstSetup 2))
  = ["API"; "Reputation"; "Risk"; "Website"; "Prover"].
Proof.
  rewrite (proj1 (proj2 (setup_creates_exactly_the_missing firstSetup 2 gatewayListed
                           eq_refl))).
  reflexivity.
Defined.

Lemma second_setup_run_witness :
  SetupBetterstack.created (SetupBetterstack.sent secondSetup 4) = [].
Proof.
  apply (second_setup_run_creates_nothing firstSetup secondSetup 2 4
           gatewayListed allListed).
  - reflexivity.
  - reflexivity.
  - intros u. unfold SetupBetterstack.has. cbn.
    destruct (String.eqb u "https://gateway.mnemom.ai/health");
      [reflexivity | discriminate].
  - intros m Hm. vm_compute in Hm.
    repeat (destruct Hm as [<- | Hm]; [reflexivity |]). contradiction.
Defined.

Lemma failed_listing_witness :
  SetupBetterstack.sent tokenlessSetup 4 = []
  /\ SetupBetterstack.status tokenlessSetup 4 = Some 1%Z.
Proof.
  destruct (failed_listing_creates_nothing tokenlessSetup 4
              "BETTERSTACK_API_TOKEN is required" eq_refl)
    as (_ & _ & Hstatus & Hnone).
  split; [apply (Hnone eq_refl) | exact Hstatus].
Defined.

Lemma listing_gathers_witness :
  snd (SetupBetterstack.getExistingMonitors secondSetup 4 (start [])) = Val allListed
  /\ SetupBetterstack.fetched (SetupBetterstack.sent secondSetup 4)
     = ["/monitors?page=1"; "/monitors?page=2"; "/monitors?page=3"].
Proof.
  destruct (listing_gathers_all_pages secondSetup 2 4) as (Hlisted & _ & Hfetched).
  - reflexivity.
  - lia.
  - intros [| [| j]] Hj; [reflexivity | reflexivity | lia].
  - reflexivity.
  - split; [exact Hlisted | exact Hfetched].
Defined.
